(** * Agricompass marketplace backend: a shallow embedding of [main.py]

    The routes of [src/main.py] (signup, login, token resolution, listing
    search, order placement, order listing) are embedded as computations in a
    state-and-exception monad over the document store.  Python floats are
    IEEE binary64 numbers ([SpecFloat], precision 53, emax 1024); strings are
    byte strings; the functions of external libraries (hashlib, bson, the
    regular-expression operator of the database server) are fields of a
    record [Lib] over which every definition is parametric. *)

From Stdlib Require Import ZArith NArith List String Ascii Bool Lia.
From Stdlib Require Import Permutation Sorted SpecFloat.
Import ListNotations.

Local Open Scope string_scope.

(* ===================================================================== *)
(** * Python floats *)
(* ===================================================================== *)

Module PyFloat.

Definition float := spec_float.

Definition prec : Z := 53.
Definition emax : Z := 1024.

Definition fadd : float -> float -> float := SFadd prec emax.
Definition fmul : float -> float -> float := SFmul prec emax.
Definition fdiv : float -> float -> float := SFdiv prec emax.

(** [x <= y] and [x < y]; both are [false] as soon as one side is a NaN. *)
Definition fle : float -> float -> bool := SFleb.
Definition flt : float -> float -> bool := SFltb.

(** The literal [0.0]. *)
Definition fzero : float := S754_zero false.

(** [float(z)] for a Python int [z]; also used to write float literals:
    [mkfloat m e] is the double nearest to [m * 2^e]. *)
Definition mkfloat (m e : Z) : float := binary_normalize prec emax m e false.
Definition float_of_int (z : Z) : float := mkfloat z 0.

Definition is_finite (x : float) : bool :=
  match x with
  | S754_zero _ | S754_finite _ _ _ => true
  | _ => false
  end.

(** Nearest integer to [num / den] ([den > 0]), ties to the even one. *)
Definition div_half_even (num den : Z) : Z :=
  let q := (num / den)%Z in
  let r := (num mod den)%Z in
  match (2 * r ?= den)%Z with
  | Lt => q
  | Gt => (q + 1)%Z
  | Eq => if Z.even q then q else (q + 1)%Z
  end.

(** The number of hundredths nearest to the exact value [m * 2^e]. *)
Definition hundredths (m : positive) (e : Z) : Z :=
  match e with
  | Zneg p => div_half_even (Zpos m * 100) (Z.pow_pos 2 p)
  | _ => (Zpos m * 2 ^ e * 100)%Z
  end.

(** The builtin [round(x, 2)] on a float: NaNs and infinities round to
    themselves; a finite [x] is rounded (correctly, ties to even, on its
    exact binary value) to a decimal with two fractional digits, and that
    decimal is converted back to the nearest double.  The sign is kept. *)
Definition round2 (x : float) : float :=
  match x with
  | S754_finite s m e =>
      match hundredths m e with
      | Zpos n => fdiv (S754_finite s n 0) (S754_finite false 100 0)
      | _ => S754_zero s
      end
  | _ => x
  end.

End PyFloat.
Export PyFloat.

(* ===================================================================== *)
(** * Python strings (one byte per character) *)
(* ===================================================================== *)

Module PyStr.

Definition code (c : ascii) : N := N_of_ascii c.

(** [str.lower] on one character: [A-Z], and the upper-case letters of
    Latin-1 (0xC0 to 0xDE but 0xD7), move 32 places up. *)
Definition lower_char (c : ascii) : ascii :=
  let n := code c in
  if ((65 <=? n) && (n <=? 90))%N then ascii_of_N (n + 32)
  else if ((192 <=? n) && (n <=? 222) && negb (n =? 215))%N then ascii_of_N (n + 32)
  else c.

Fixpoint lower (s : string) : string :=
  match s with
  | EmptyString => EmptyString
  | String c r => String (lower_char c) (lower r)
  end.

(** [s.startswith(p)] *)
Fixpoint startswith (s p : string) {struct p} : bool :=
  match p with
  | EmptyString => true
  | String a p' =>
      match s with
      | String b s' => Ascii.eqb a b && startswith s' p'
      | EmptyString => false
      end
  end.

(** [str.isspace] on one character of code below 256. *)
Definition is_space (c : ascii) : bool :=
  let n := code c in
  (((9 <=? n) && (n <=? 13)) || ((28 <=? n) && (n <=? 32))
   || (n =? 133) || (n =? 160))%N.

Fixpoint lstrip (s : string) : string :=
  match s with
  | String c r => if is_space c then lstrip r else s
  | EmptyString => EmptyString
  end.

Fixpoint rstrip (s : string) : string :=
  match s with
  | EmptyString => EmptyString
  | String c r =>
      match rstrip r with
      | EmptyString => if is_space c then EmptyString else String c EmptyString
      | r' => String c r'
      end
  end.

(** [s.strip()] *)
Definition strip (s : string) : string := rstrip (lstrip s).

(** [s.split(" ", 1)]: the part before the first space and, when there is a
    space, the whole remainder after it. *)
Fixpoint split_space_1 (s : string) : string * option string :=
  match s with
  | EmptyString => (EmptyString, None)
  | String c r =>
      if Ascii.eqb c " " then (EmptyString, Some r)
      else let '(a, b) := split_space_1 r in (String c a, b)
  end.

(** Python truthiness of an optional string: [None] and [""] are falsy. *)
Definition truthy (o : option string) : bool :=
  match o with
  | Some (String _ _) => true
  | _ => false
  end.



End PyStr.
Export PyStr.

(* ===================================================================== *)
(** * Documents, exceptions and the store *)
(* ===================================================================== *)

(** A bson object id, as the number its twelve bytes spell. *)
Definition OID := N.

(** Functions of external libraries.  [ObjectId s] is [None] when
    [bson.ObjectId(s)] raises; [regex_search_i q t] tells whether the
    database server finds the regular expression [q] in [t] under option
    [i] (the filter [{"$regex": q, "$options": "i"}]). *)
Record Lib := {
  sha256_hex : string -> string;
  ObjectId : string -> option OID;
  oid_str : OID -> string;
  regex_search_i : string -> string -> bool
}.

Inductive exn :=
| HTTPException (status_code : Z) (detail : string)
| RequestValidationError (param : string)
| Uncaught (exception : string).

(** Modelled from the spec: a stored document ([database.py] is not among
    the sources): the unique identifier and the creation time every
    persisted record carries, and the fields of its collection. *)
Record stored (T : Type) := {
  _id : OID;
  created_at : Z;
  fields : T
}.
Arguments _id {T} _.
Arguments created_at {T} _.
Arguments fields {T} _.

(** Collection [user].  Fields read with [.get] may be absent. *)
Record UserDoc := {
  u_name : option string;
  u_email : string;
  u_password_hash : option string;
  u_role : option string;
  u_phone : option string;
  u_region : option string;
  u_verified : bool;
  u_token : option string
}.

(** Collection [listing]. *)
Record ListingDoc := {
  l_farmer_id : string;
  l_title : option string;
  l_category : option string;
  l_description : option string;
  l_unit : option string;
  l_quantity_available : float;
  l_unit_price : option float;
  l_region : option string;
  l_quality_grade : option string;
  l_status : option string
}.

(** [schemas.OrderItem] *)
Record OrderItem := {
  oi_listing_id : string;
  oi_quantity : float;
  oi_unit_price : float;
  oi_title : string
}.

(** Collection [order]. *)
Record OrderDoc := {
  o_buyer_id : string;
  o_items : list OrderItem;
  o_total_amount : float;
  o_status : string;
  o_delivery_terms : option string;
  o_payment_method : option string
}.

Record database := {
  user : list (stored UserDoc);
  listing : list (stored ListingDoc);
  order : list (stored OrderDoc);
  next_oid : OID
}.

(** A named collection of the store. *)
Record collection (T : Type) := {
  docs : database -> list (stored T);
  set_docs : list (stored T) -> database -> database
}.
Arguments docs {T} _ _.
Arguments set_docs {T} _ _ _.

Definition user_c : collection UserDoc :=
  {| docs := user;
     set_docs := fun l db =>
       {| user := l; listing := listing db; order := order db; next_oid := next_oid db |} |}.

Definition listing_c : collection ListingDoc :=
  {| docs := listing;
     set_docs := fun l db =>
       {| user := user db; listing := l; order := order db; next_oid := next_oid db |} |}.

Definition order_c : collection OrderDoc :=
  {| docs := order;
     set_docs := fun l db =>
       {| user := user db; listing := listing db; order := l; next_oid := next_oid db |} |}.

Definition bump (db : database) : database :=
  {| user := user db; listing := listing db; order := order db;
     next_oid := N.succ (next_oid db) |}.

(* ===================================================================== *)
(** * The monad of route handlers *)
(* ===================================================================== *)

Inductive result (A : Type) :=
| Ok (a : A)
| Raise (e : exn).
Arguments Ok {A} _.
Arguments Raise {A} _.

(** A handler reads and writes the store and returns or raises; what was
    written before an exception stays written. *)
Definition M (A : Type) : Type := database -> database * result A.

Definition ret {A} (a : A) : M A := fun db => (db, Ok a).

Definition raise {A} (e : exn) : M A := fun db => (db, Raise e).

Definition bind {A B} (c : M A) (k : A -> M B) : M B :=
  fun db =>
    match c db with
    | (db', Ok a) => k a db'
    | (db', Raise e) => (db', Raise e)
    end.

Notation "x <- c ;; k" := (bind c (fun x => k))
  (at level 61, c at next level, right associativity).

(** Lifting a pure computation that may raise. *)
Definition lift {A} (r : result A) : M A := fun db => (db, r).

(* ===================================================================== *)
(** * The persistence gateway *)
(* ===================================================================== *)

Section Sorting.
Context {T : Type}.

(** Insertion into a list ordered by creation time, newest first; the
    document goes before the ones that are not newer. *)
Fixpoint insert_desc (d : stored T) (l : list (stored T)) : list (stored T) :=
  match l with
  | [] => [d]
  | x :: r =>
      if (created_at d <? created_at x)%Z then x :: insert_desc d r
      else d :: l
  end.

(** Modelled from the spec: [.sort("created_at", -1)] of the driver,
    ordering by creation time descending. *)
Definition sort_desc (l : list (stored T)) : list (stored T) :=
  fold_right insert_desc [] l.

(** Newest first. *)
Definition desc (a b : stored T) : Prop := (created_at b <= created_at a)%Z.

End Sorting.

(** Modelled from the spec: the persistence gateway ([database.py] and the
    driver behind [db] are not among the sources): generic create, find and
    update operations over named collections; [find_one] gives the first
    document the filter accepts. *)
Definition find_one {T} (c : collection T) (filt : stored T -> bool)
  : M (option (stored T)) :=
  fun db => (db, Ok (List.find filt (docs c db))).

(** Modelled from the spec: a query under construction ([find] followed by
    [.limit] and [.sort]); nothing is read before it is iterated. *)
Record cursor (T : Type) := {
  cur_coll : collection T;
  cur_filter : stored T -> bool;
  cur_limit : option nat;
  cur_sort : bool
}.
Arguments cur_coll {T} _.
Arguments cur_filter {T} _.
Arguments cur_limit {T} _.
Arguments cur_sort {T} _.

Definition find {T} (c : collection T) (filt : stored T -> bool) : cursor T :=
  {| cur_coll := c; cur_filter := filt; cur_limit := None; cur_sort := false |}.

Definition with_limit {T} (cur : cursor T) (n : nat) : cursor T :=
  {| cur_coll := cur_coll cur; cur_filter := cur_filter cur;
     cur_limit := Some n; cur_sort := cur_sort cur |}.

Definition sort_created_at_desc {T} (cur : cursor T) : cursor T :=
  {| cur_coll := cur_coll cur; cur_filter := cur_filter cur;
     cur_limit := cur_limit cur; cur_sort := true |}.

(** Modelled from the spec: iterating a query: the documents the filter
    accepts, ordered by creation time descending when a sort was asked for,
    then capped at the limit (the order of the [.limit] and [.sort] calls
    does not matter). *)
Definition run_query {T} (cur : cursor T) (db : database) : list (stored T) :=
  let found := filter (cur_filter cur) (docs (cur_coll cur) db) in
  let sorted := if cur_sort cur then sort_desc found else found in
  match cur_limit cur with
  | Some n => firstn n sorted
  | None => sorted
  end.

Definition fetch {T} (cur : cursor T) : M (list (stored T)) :=
  fun db => (db, Ok (run_query cur db)).

(** Modelled from the spec: the first document the filter accepts is
    replaced by its update; the count of matched documents (0 or 1) comes
    with the new list. *)
Fixpoint update_first {T} (filt : stored T -> bool) (upd : T -> T)
  (l : list (stored T)) : list (stored T) * nat :=
  match l with
  | [] => ([], 0)
  | d :: r =>
      if filt d
      then ({| _id := _id d; created_at := created_at d; fields := upd (fields d) |} :: r, 1)
      else let '(r', n) := update_first filt upd r in (d :: r', n)
  end.

(** Modelled from the spec: [update_one] with a [$set], one atomic update
    of the first matching document; returns [matched_count]. *)
Definition update_one {T} (c : collection T) (filt : stored T -> bool)
  (upd : T -> T) : M nat :=
  fun db =>
    let '(l, n) := update_first filt upd (docs c db) in
    (set_docs c l db, Ok n).

(* ===================================================================== *)
(** * Request and response bodies *)
(* ===================================================================== *)

(** The roles a [SignUpBody] admits (its [pattern]). *)
Inductive Role := farmer | buyer | officer | admin.

Definition role_str (r : Role) : string :=
  match r with
  | farmer => "farmer"
  | buyer => "buyer"
  | officer => "officer"
  | admin => "admin"
  end.

Record AuthedUser := {
  au_id : string;
  au_role : string;
  au_name : option string
}.

Record SignUpBody := {
  sb_name : string;
  sb_email : string;
  sb_password : string;
  sb_role : Role;
  sb_phone : option string;
  sb_region : option string
}.

Record LoginBody := {
  lb_email : string;
  lb_password : string
}.

(** What signup and login return: [{"id", "token", "role", "name"}]. *)
Record AuthResponse := {
  ar_id : string;
  ar_token : string;
  ar_role : string;
  ar_name : option string
}.

Record OrderItemIn := {
  listing_id : string;
  quantity : float
}.

Record CreateOrderBody := {
  items : list OrderItemIn;
  delivery_terms : option string;
  payment_method : option string
}.

(** What order creation returns: [{"id", "total", "status"}]. *)
Record OrderResponse := {
  or_id : string;
  or_total : float;
  or_status : string
}.

(** A document as [serialize_doc] returns it: [_id] replaced by its string
    under the key [id]. *)
Record serialized (T : Type) := {
  s_id : string;
  s_created_at : Z;
  s_fields : T
}.
Arguments s_id {T} _.
Arguments s_created_at {T} _.
Arguments s_fields {T} _.

(** The filter document of a listing search; an absent key is [None]. *)
Record ListingFilter := {
  f_status : option string;
  f_category : option string;
  f_region : option string;
  f_unit_price : option (option float * option float);
  f_title_regex : option string
}.

Definition opt_str_eqb (a b : option string) : bool :=
  match a, b with
  | Some x, Some y => String.eqb x y
  | None, None => true
  | _, _ => false
  end.

Definition is_some {A} (o : option A) : bool :=
  match o with Some _ => true | None => false end.

Definition dflt {A} (o : option A) (d : A) : A :=
  match o with Some a => a | None => d end.

(* ===================================================================== *)
(** * The routes of [main.py] *)
(* ===================================================================== *)

Section Routes.

Context (L : Lib).

(** Modelled from the spec: [create_document] of [database.py] (not among
    the sources): the record gets a fresh unique identifier and the creation
    time [now], is appended to its collection, and the identifier comes back
    as a string. *)
Definition create_document {T} (c : collection T) (data : T) (now : Z) : M string :=
  fun db =>
    let i := next_oid db in
    let d := {| _id := i; created_at := now; fields := data |} in
    (bump (set_docs c (docs c db ++ [d]) db), Ok (oid_str L i)).

(** ** Helpers *)

Definition oid (s : string) : M OID :=
  match ObjectId L s with
  | Some o => ret o
  | None => raise (HTTPException 400 "Invalid id format")
  end.

Definition serialize_doc {T} (doc : stored T) : serialized T :=
  {| s_id := oid_str L (_id doc);
     s_created_at := created_at doc;
     s_fields := fields doc |}.

Definition hash_password (pw : string) : string := sha256_hex L pw.

(** The token scheme: the hash of [email:role]. *)
Definition derive_token (email role : string) : string :=
  sha256_hex L (email ++ ":" ++ role).

(** ** Auth dependency *)

Definition get_current_user (authorization : option string) : M AuthedUser :=
  match authorization with
  | None => raise (HTTPException 401 "Unauthorized")
  | Some h =>
      if negb (truthy authorization) || negb (startswith (lower h) "bearer ")
      then raise (HTTPException 401 "Unauthorized")
      else
        match snd (split_space_1 h) with
        | None => raise (Uncaught "IndexError")
        | Some rest =>
            let token := strip rest in
            found <- find_one user_c
                       (fun d => opt_str_eqb (u_token (fields d)) (Some token)) ;;
            match found with
            | None => raise (HTTPException 401 "Invalid token")
            | Some u =>
                let s := serialize_doc u in
                ret {| au_id := s_id s;
                       au_role := dflt (u_role (s_fields s)) "farmer";
                       au_name := u_name (s_fields s) |}
            end
        end
  end.

(** ** Auth routes *)

(** [schemas.User(...)], dumped as the document to store. *)
Definition UserSchema (name email password_hash : string) (role : Role)
  (phone region : option string) (verified : bool) (token : option string) : UserDoc :=
  {| u_name := Some name;
     u_email := email;
     u_password_hash := Some password_hash;
     u_role := Some (role_str role);
     u_phone := phone;
     u_region := region;
     u_verified := verified;
     u_token := token |}.

Definition signup (body : SignUpBody) (now : Z) : M AuthResponse :=
  existing <- find_one user_c
                (fun d => String.eqb (u_email (fields d)) (sb_email body)) ;;
  match existing with
  | Some _ => raise (HTTPException 400 "Email already registered")
  | None =>
      let token := derive_token (sb_email body) (role_str (sb_role body)) in
      let user := UserSchema (sb_name body) (sb_email body)
                    (hash_password (sb_password body)) (sb_role body)
                    (sb_phone body) (sb_region body) false (Some token) in
      user_id <- create_document user_c user now ;;
      ret {| ar_id := user_id;
             ar_token := token;
             ar_role := role_str (sb_role body);
             ar_name := Some (sb_name body) |}
  end.

Definition set_token (token : string) (u : UserDoc) : UserDoc :=
  {| u_name := u_name u;
     u_email := u_email u;
     u_password_hash := u_password_hash u;
     u_role := u_role u;
     u_phone := u_phone u;
     u_region := u_region u;
     u_verified := u_verified u;
     u_token := Some token |}.

Definition login (body : LoginBody) : M AuthResponse :=
  found <- find_one user_c
             (fun d => String.eqb (u_email (fields d)) (lb_email body)) ;;
  match found with
  | None => raise (HTTPException 401 "Invalid credentials")
  | Some user =>
      if negb (opt_str_eqb (u_password_hash (fields user))
                 (Some (hash_password (lb_password body))))
      then raise (HTTPException 401 "Invalid credentials")
      else
        token <- (match u_token (fields user) with
                  | Some (String c t) => ret (String c t)
                  | _ =>
                      let token := derive_token (u_email (fields user))
                                     (dflt (u_role (fields user)) "farmer") in
                      _ <- update_one user_c
                             (fun d => N.eqb (_id d) (_id user)) (set_token token) ;;
                      ret token
                  end) ;;
        ret {| ar_id := oid_str L (_id user);
               ar_token := token;
               ar_role := dflt (u_role (fields user)) "farmer";
               ar_name := u_name (fields user) |}
  end.

(** ** Listings *)

(** Modelled from the spec: how the store matches a listing against a
    filter document: equality on [status], [category] and [region], an
    inclusive range on [unit_price], the regular expression on [title]; a
    condition on a field the document lacks fails. *)
Definition matches (filt : ListingFilter) (d : stored ListingDoc) : bool :=
  let l := fields d in
  (match f_status filt with
   | Some s => opt_str_eqb (l_status l) (Some s)
   | None => true
   end)
  && (match f_category filt with
      | Some c => opt_str_eqb (l_category l) (Some c)
      | None => true
      end)
  && (match f_region filt with
      | Some r => opt_str_eqb (l_region l) (Some r)
      | None => true
      end)
  && (match f_unit_price filt with
      | Some (lo, hi) =>
          match l_unit_price l with
          | Some p =>
              (match lo with Some a => fle a p | None => true end)
              && (match hi with Some b => fle p b | None => true end)
          | None => false
          end
      | None => true
      end)
  && (match f_title_regex filt with
      | Some q =>
          match l_title l with
          | Some t => regex_search_i L q t
          | None => false
          end
      | None => true
      end).

Definition price_param_ok (p : option float) : bool :=
  match p with
  | Some x => fle fzero x
  | None => true
  end.

(** The filter document [filt] that [get_listings] builds. *)
Definition listing_filter (category region q : option string)
  (min_price max_price : option float) : ListingFilter :=
  {| f_status := Some "active";
     f_category := if truthy category then category else None;
     f_region := if truthy region then region else None;
     f_unit_price :=
       if is_some min_price || is_some max_price
       then Some (min_price, max_price) else None;
     f_title_regex := if truthy q then q else None |}.

(** The constraints of the query parameters ([ge=0], [ge=1, le=200]) are
    checked before the body runs. *)
Definition get_listings (category region q : option string)
  (min_price max_price : option float) (limit : Z)
  : M (list (serialized ListingDoc)) :=
  if negb (price_param_ok min_price) then raise (RequestValidationError "min_price")
  else if negb (price_param_ok max_price) then raise (RequestValidationError "max_price")
  else if negb ((1 <=? limit) && (limit <=? 200))%Z then raise (RequestValidationError "limit")
  else
    let filt := listing_filter category region q min_price max_price in
    docs <- fetch (sort_created_at_desc
                     (with_limit (find listing_c (matches filt)) (Z.to_nat limit))) ;;
    ret (map serialize_doc docs).

(** ** Orders *)

Definition role_in (current : AuthedUser) (roles : list string) : bool :=
  existsb (String.eqb (au_role current)) roles.

(** The constraints of [schemas.OrderItem]: [quantity > 0] and
    [unit_price >= 0].  A constraint accepts a value that compares on the
    right side of its bound, so a NaN, which compares [false], is refused;
    an infinity is a float like another. *)
Definition OrderItem_valid (i : OrderItem) : bool :=
  flt fzero (oi_quantity i) && fle fzero (oi_unit_price i).

(** [schemas.Order(...)], dumped as the document to store; the
    constructor validates the items and [total_amount >= 0]. *)
Definition OrderSchema (buyer_id : string) (items : list OrderItem)
  (total_amount : float) (status : string)
  (delivery_terms payment_method : option string) : result OrderDoc :=
  if forallb OrderItem_valid items && fle fzero total_amount
  then Ok {| o_buyer_id := buyer_id;
             o_items := items;
             o_total_amount := total_amount;
             o_status := status;
             o_delivery_terms := delivery_terms;
             o_payment_method := payment_method |}
  else Raise (Uncaught "ValidationError").

(** The snapshot one item leaves in the order. *)
Definition snapshot (it : OrderItemIn) (ldoc : stored ListingDoc) : OrderItem :=
  {| oi_listing_id := listing_id it;
     oi_quantity := quantity it;
     oi_unit_price := dflt (l_unit_price (fields ldoc)) (float_of_int 0);
     oi_title := dflt (l_title (fields ldoc)) "Produce" |}.

(** The loop of [create_order] over the remaining items, with the
    snapshots and the total accumulated so far. *)
Fixpoint order_loop (its : list OrderItemIn) (items_out : list OrderItem)
  (total : float) : M (list OrderItem * float) :=
  match its with
  | [] => ret (items_out, total)
  | it :: rest =>
      o <- oid (listing_id it) ;;
      ldoc <- find_one listing_c (fun d => N.eqb (_id d) o) ;;
      match ldoc with
      | None =>
          raise (HTTPException 404 ("Listing not found: " ++ listing_id it))
      | Some l =>
          if negb (opt_str_eqb (l_status (fields l)) (Some "active"))
          then raise (HTTPException 400 ("Listing not active: " ++ listing_id it))
          else if fle (quantity it) fzero
          then raise (HTTPException 400 "Quantity must be > 0")
          else
            let item := snapshot it l in
            order_loop rest (items_out ++ [item])
              (fadd total (fmul (oi_unit_price item) (quantity it)))
      end
  end.

Definition create_order (body : CreateOrderBody) (current : AuthedUser) (now : Z)
  : M OrderResponse :=
  if negb (role_in current ["buyer"; "admin"])
  then raise (HTTPException 403 "Only buyers can place orders")
  else
    match items body with
    | [] => raise (HTTPException 400 "No items provided")
    | _ :: _ =>
        r <- order_loop (items body) [] fzero ;;
        let '(items_out, total) := r in
        order <- lift (OrderSchema (au_id current) items_out (round2 total)
                         "pending" (delivery_terms body) (payment_method body)) ;;
        order_id <- create_document order_c order now ;;
        ret {| or_id := order_id; or_total := round2 total; or_status := "pending" |}
    end.

Definition my_orders (current : AuthedUser) : M (list (serialized OrderDoc)) :=
  if negb (role_in current ["buyer"; "admin"])
  then raise (HTTPException 403 "Only buyers can view their orders")
  else
    docs <- fetch (sort_created_at_desc
                     (find order_c
                        (fun d => String.eqb (o_buyer_id (fields d)) (au_id current)))) ;;
    ret (map serialize_doc docs).

End Routes.

(* ===================================================================== *)
(** * The vocabulary of the specification *)
(* ===================================================================== *)

(** The error kinds of the specification, as the caller can tell them
    apart: by the HTTP status code. *)
Inductive ErrorKind :=
| BadRequest | Unauthorized | Forbidden | NotFound | Conflict | Internal.

Definition error_kind (e : exn) : ErrorKind :=
  match e with
  | HTTPException 400 _ => BadRequest
  | HTTPException 401 _ => Unauthorized
  | HTTPException 403 _ => Forbidden
  | HTTPException 404 _ => NotFound
  | HTTPException 409 _ => Conflict
  | RequestValidationError _ => BadRequest
  | _ => Internal
  end.



Fixpoint no_space (s : string) : bool :=
  match s with
  | EmptyString => true
  | String c r => negb (Ascii.eqb c " ") && no_space r
  end.

(** [0 <= x]: a zero of either sign, a positive number or the positive
    infinity; not a NaN. *)
Definition at_least_zero (x : float) : Prop := fle fzero x = true.

(** As [at_least_zero], the negative zero apart. *)
Definition positive_or_zero (x : float) : bool :=
  match x with
  | S754_zero false | S754_finite false _ _ | S754_infinity false => true
  | _ => false
  end.

(** [n] is the whole number of hundredths nearest to the exact value
    [m * 2^e], the even one when two are as near: with [num / den] that
    value times 100, [n] is within half a unit of it. *)
Definition nearest_hundredths (n : Z) (m : positive) (e : Z) : Prop :=
  let num := match e with
             | Zneg _ => (Zpos m * 100)%Z
             | _ => (Zpos m * 2 ^ e * 100)%Z
             end in
  let den := match e with
             | Zneg p => Z.pow_pos 2 p
             | _ => 1%Z
             end in
  (0 <= n)%Z
  /\ (Z.abs (2 * (n * den) - 2 * num) <= den)%Z
  /\ ((Z.abs (2 * (n * den) - 2 * num) = den)%Z -> Z.even n = true).

(** [y] is [x] rounded to two decimal places: the double nearest to
    [n / 100] for the nearest number [n] of hundredths of [x], with the
    sign of [x]; an infinity and a NaN are left as they are. *)
Definition rounds_to_cents (x y : float) : Prop :=
  match x with
  | S754_finite s m e =>
      exists n, nearest_hundredths n m e
                /\ y = match n with
                       | Zpos k => fdiv (S754_finite s k 0) (S754_finite false 100 0)
                       | _ => S754_zero s
                       end
  | _ => y = x
  end.

(** Whitespace only; a first and a last character that are not
    whitespace. *)
Fixpoint all_space (s : string) : bool :=
  match s with
  | EmptyString => true
  | String c r => is_space c && all_space r
  end.

Definition first_nonspace (s : string) : bool :=
  match s with
  | EmptyString => false
  | String c _ => negb (is_space c)
  end.

Fixpoint last_nonspace (s : string) : bool :=
  match s with
  | EmptyString => false
  | String c EmptyString => negb (is_space c)
  | String _ r => last_nonspace r
  end.

(** Every requested quantity is a finite number. *)
Definition finite_quantities (its : list OrderItemIn) : Prop :=
  Forall (fun it => is_finite (quantity it) = true) its.

(** The amount of one order line and the running total of [create_order]:
    the lines are added from left to right, starting from [0.0]. *)
Definition line_total (i : OrderItem) : float :=
  fmul (oi_unit_price i) (oi_quantity i).

Definition line_sum (l : list OrderItem) : float :=
  fold_left (fun t i => fadd t (line_total i)) l fzero.

(** Running totals from [t] on. *)
Definition sum_from (t : float) (l : list OrderItem) : float :=
  fold_left (fun t i => fadd t (line_total i)) l t.

(** The caller may place and list orders. *)
Definition buyer_or_admin (current : AuthedUser) : Prop :=
  au_role current = "buyer" \/ au_role current = "admin".

Section Vocabulary.

Context (L : Lib).

(** The listing an order item refers to, if its identifier is well formed
    and a listing carries it. *)
Definition listing_of (db : database) (it : OrderItemIn) : option (stored ListingDoc) :=
  match ObjectId L (listing_id it) with
  | Some o => List.find (fun d => N.eqb (_id d) o) (listing db)
  | None => None
  end.

Definition is_active (l : stored ListingDoc) : Prop :=
  l_status (fields l) = Some "active".

(** An item passes the checks of the loop: its listing exists and is
    active, and its quantity is not [<= 0]. *)
Definition passes (db : database) (it : OrderItemIn) : Prop :=
  exists l, listing_of db it = Some l /\ is_active l /\ fle (quantity it) fzero = false.

(** An item fails one of the four checks. *)
Inductive fails (db : database) (it : OrderItemIn) : Prop :=
| fails_malformed :
    ObjectId L (listing_id it) = None -> fails db it
| fails_absent o :
    ObjectId L (listing_id it) = Some o ->
    List.find (fun d => N.eqb (_id d) o) (listing db) = None -> fails db it
| fails_inactive l :
    listing_of db it = Some l -> ~ is_active l -> fails db it
| fails_quantity :
    fle (quantity it) fzero = true -> fails db it.

(** An item is valid: it passes the loop and its snapshot satisfies the
    [OrderItem] schema. *)
Definition valid_item (db : database) (it : OrderItemIn) : Prop :=
  exists l, listing_of db it = Some l /\ is_active l
            /\ OrderItem_valid (snapshot it l) = true.

(** The snapshots of a list of items (items without a listing leave none). *)
Fixpoint snapshots (db : database) (its : list OrderItemIn) : list OrderItem :=
  match its with
  | [] => []
  | it :: rest =>
      match listing_of db it with
      | Some l => snapshot it l :: snapshots db rest
      | None => snapshots db rest
      end
  end.


(** The caller a token resolves to. *)
Definition resolve (db : database) (token : string) : result AuthedUser :=
  match List.find (fun d => opt_str_eqb (u_token (fields d)) (Some token)) (user db) with
  | Some u =>
      Ok {| au_id := oid_str L (_id u);
            au_role := dflt (u_role (fields u)) "farmer";
            au_name := u_name (fields u) |}
  | None => Raise (HTTPException 401 "Invalid token")
  end.

Definition has_email (e : string) (d : stored UserDoc) : bool :=
  String.eqb (u_email (fields d)) e.

(** Some stored user has this email. *)
Definition registered (db : database) (e : string) : Prop :=
  exists u, In u (user db) /\ u_email (fields u) = e.

(** The password is the one of the stored user. *)
Definition password_ok (u : stored UserDoc) (pw : string) : Prop :=
  u_password_hash (fields u) = Some (sha256_hex L pw).

(** What login answers for user [u] with token [token]. *)
Definition login_response (u : stored UserDoc) (token : string) : AuthResponse :=
  {| ar_id := oid_str L (_id u);
     ar_token := token;
     ar_role := dflt (u_role (fields u)) "farmer";
     ar_name := u_name (fields u) |}.

(** The token derived for a stored user. *)
Definition token_of (u : stored UserDoc) : string :=
  sha256_hex L (u_email (fields u) ++ ":" ++ dflt (u_role (fields u)) "farmer").

Definition same_id (u : stored UserDoc) (d : stored UserDoc) : bool :=
  N.eqb (_id d) (_id u).




End Vocabulary.


(* ===================================================================== *)
(** * An instance of the libraries, to run the routes *)
(* ===================================================================== *)

Module Sample.

Definition hex_val (c : ascii) : option N :=
  let n := code c in
  if ((48 <=? n) && (n <=? 57))%N then Some (n - 48)%N
  else if ((97 <=? n) && (n <=? 102))%N then Some (n - 87)%N
  else if ((65 <=? n) && (n <=? 70))%N then Some (n - 55)%N
  else None.

Fixpoint hex_parse (s : string) (acc : N) : option N :=
  match s with
  | EmptyString => Some acc
  | String c r =>
      match hex_val c with
      | Some v => hex_parse r (16 * acc + v)%N
      | None => None
      end
  end.

(** Object ids written as 24 hexadecimal digits. *)
Definition parse_oid (s : string) : option OID :=
  if Nat.eqb (String.length s) 24 then hex_parse s 0%N else None.

Definition hex_digit (n : N) : ascii :=
  if (n <? 10)%N then ascii_of_N (48 + n) else ascii_of_N (87 + n).

Fixpoint hex_print (k : nat) (n : N) (acc : string) : string :=
  match k with
  | O => acc
  | S k' => hex_print k' (n / 16)%N (String (hex_digit (n mod 16)%N) acc)
  end.

Definition print_oid (o : OID) : string := hex_print 24 o "".

(** A stand-in for the digest: any function of the text will do. *)
Definition digest (s : string) : string := "sha256(" ++ s ++ ")".

(** Regular expressions made of literal characters and of the wildcard
    [.], which stands for any character but a line feed; the search is
    unanchored and ignores case.  The other metacharacters are not
    interpreted: the instance is meant for patterns without them. *)
Definition match_char (p c : ascii) : bool :=
  if Ascii.eqb p "." then negb (Ascii.eqb c "010")
  else Ascii.eqb (lower_char p) (lower_char c).

Fixpoint match_here (q t : string) : bool :=
  match q, t with
  | EmptyString, _ => true
  | String p q', String c t' => match_char p c && match_here q' t'
  | String _ _, EmptyString => false
  end.

Fixpoint search (q t : string) : bool :=
  match_here q t ||
  match t with
  | EmptyString => false
  | String _ t' => search q t'
  end.

Definition lib : Lib :=
  {| sha256_hex := digest;
     ObjectId := parse_oid;
     oid_str := print_oid;
     regex_search_i := search |}.

(** A store with one farmer, one buyer and three listings: maize at 2.5,
    beans withdrawn from sale, and a record without price nor title. *)
Definition amara : stored UserDoc :=
  {| _id := 1%N; created_at := 100%Z;
     fields := UserSchema "Amara" "a@x.com" (digest "pw123") farmer None None false
                 (Some (digest "a@x.com:farmer")) |}.

Definition bola : stored UserDoc :=
  {| _id := 2%N; created_at := 101%Z;
     fields := UserSchema "Bola" "b@x.com" (digest "secret") buyer None None false None |}.

Definition mk_listing (title : option string) (price : option float)
  (status : string) : ListingDoc :=
  {| l_farmer_id := print_oid 1%N;
     l_title := title;
     l_category := Some "grains";
     l_description := None;
     l_unit := Some "kg";
     l_quantity_available := mkfloat 100 0;
     l_unit_price := price;
     l_region := None;
     l_quality_grade := None;
     l_status := Some status |}.

Definition maize : stored ListingDoc :=
  {| _id := 16%N; created_at := 110%Z;
     fields := mk_listing (Some "Maize") (Some (mkfloat 5 (-1))) "active" |}.

Definition beans : stored ListingDoc :=
  {| _id := 17%N; created_at := 111%Z;
     fields := mk_listing (Some "Beans") (Some (mkfloat 3 0)) "inactive" |}.

Definition bare : stored ListingDoc :=
  {| _id := 18%N; created_at := 112%Z; fields := mk_listing None None "active" |}.

Definition db0 : database :=
  {| user := [amara; bola]; listing := [maize; beans; bare]; order := []; next_oid := 32%N |}.

(** A store whose only listing has a price below zero, which no listing
    created through the API has. *)
Definition odd : stored ListingDoc :=
  {| _id := 19%N; created_at := 113%Z;
     fields := mk_listing (Some "Odd") (Some (mkfloat (-1) 0)) "active" |}.

Definition db_odd : database :=
  {| user := [amara; bola]; listing := [odd]; order := []; next_oid := 32%N |}.

Definition odd_id : string := "000000000000000000000013".

Definition maize_id : string := "000000000000000000000010".
Definition beans_id : string := "000000000000000000000011".
Definition bare_id : string := "000000000000000000000012".

Definition bola_user : AuthedUser :=
  {| au_id := print_oid 2%N; au_role := "buyer"; au_name := Some "Bola" |}.

Definition cart (its : list OrderItemIn) : CreateOrderBody :=
  {| items := its; delivery_terms := None; payment_method := None |}.

Definition item (i : string) (q : Z) : OrderItemIn :=
  {| listing_id := i; quantity := float_of_int q |}.

(** The same store after three orders, two of the buyer and one placed by
    an admin. *)
Definition mk_order (buyer_id : string) : OrderDoc :=
  {| o_buyer_id := buyer_id;
     o_items := [];
     o_total_amount := fzero;
     o_status := "pending";
     o_delivery_terms := None;
     o_payment_method := None |}.

Definition order_a : stored OrderDoc :=
  {| _id := 48%N; created_at := 300%Z; fields := mk_order (print_oid 2%N) |}.
Definition order_b : stored OrderDoc :=
  {| _id := 49%N; created_at := 301%Z; fields := mk_order (print_oid 9%N) |}.
Definition order_c' : stored OrderDoc :=
  {| _id := 50%N; created_at := 302%Z; fields := mk_order (print_oid 2%N) |}.

Definition db1 : database :=
  {| user := [amara; bola]; listing := [maize; beans; bare];
     order := [order_a; order_b; order_c']; next_oid := 64%N |}.

Definition ada_user : AuthedUser :=
  {| au_id := print_oid 9%N; au_role := "admin"; au_name := Some "Ada" |}.

Definition amara_user : AuthedUser :=
  {| au_id := print_oid 1%N; au_role := "farmer"; au_name := Some "Amara" |}.

Definition signup_body (email : string) : SignUpBody :=
  {| sb_name := "Chidi"; sb_email := email; sb_password := "pw";
     sb_role := buyer; sb_phone := None; sb_region := None |}.

Definition bola_login : LoginBody :=
  {| lb_email := "b@x.com"; lb_password := "secret" |}.

Definition amara_login : LoginBody :=
  {| lb_email := "a@x.com"; lb_password := "pw123" |}.

End Sample.

(* ===================================================================== *)
(** * The other routes of [main.py]: listings, status, messages *)
(* ===================================================================== *)

(** [CreateListingBody] *)
Record CreateListingBody := {
  cl_title : string;
  cl_category : option string;
  cl_description : option string;
  cl_unit : option string;
  cl_quantity_available : float;
  cl_unit_price : float;
  cl_region : option string;
  cl_quality_grade : option string
}.

(** The statuses a [VerifyListingBody] admits (its [pattern]). *)
Inductive Status := Active | Inactive | Sold.

Definition status_str (s : Status) : string :=
  match s with
  | Active => "active"
  | Inactive => "inactive"
  | Sold => "sold"
  end.

Record VerifyListingBody := {
  vb_status : Status
}.

(** What a status update returns: [{"id", "status"}]. *)
Record StatusResponse := {
  sr_id : string;
  sr_status : string
}.

(** [MessageBody] *)
Record MessageBody := {
  mb_recipient_id : string;
  mb_body : string;
  mb_related_order_id : option string
}.

(** Collection [message] ([schemas.Message]). *)
Record MessageDoc := {
  m_sender_id : string;
  m_recipient_id : string;
  m_body : string;
  m_related_order_id : option string
}.

(** The store with its collection [message], which sits beside the
    collections of [database] and draws its identifiers from the same
    source. *)
Record mailstore := {
  core : database;
  message : list (stored MessageDoc)
}.

(** [x or d] on an optional string: [None] and [""] give [d]. *)
Definition or_else (o : option string) (d : string) : string :=
  match o with
  | Some (String c r) => String c r
  | _ => d
  end.

Definition in_list (s : string) (l : list string) : bool :=
  existsb (String.eqb s) l.

(** The constraints of [schemas.Listing]: the literals of [category],
    [unit], [quality_grade] and [status], and the two bounds [>= 0]. *)
Definition Listing_valid (category unit : string)
  (quantity_available unit_price : float)
  (quality_grade : option string) (status : string) : bool :=
  in_list category ["grains"; "vegetables"; "fruits"; "legumes"; "roots"; "other"]
  && in_list unit ["kg"; "ton"; "bag"; "crate"; "unit"]
  && fle fzero quantity_available
  && fle fzero unit_price
  && match quality_grade with
     | Some g => in_list g ["A"; "B"; "C"]
     | None => true
     end
  && in_list status ["active"; "inactive"; "sold"].

(** [schemas.Listing(...)], dumped as the document to store. *)
Definition ListingSchema (farmer_id title category : string)
  (description : option string) (unit : string)
  (quantity_available unit_price : float)
  (region quality_grade : option string) (status : string) : result ListingDoc :=
  if Listing_valid category unit quantity_available unit_price quality_grade status
  then Ok {| l_farmer_id := farmer_id;
             l_title := Some title;
             l_category := Some category;
             l_description := description;
             l_unit := Some unit;
             l_quantity_available := quantity_available;
             l_unit_price := Some unit_price;
             l_region := region;
             l_quality_grade := quality_grade;
             l_status := Some status |}
  else Raise (Uncaught "ValidationError").

(** The [$set] of a status update. *)
Definition set_status (s : string) (l : ListingDoc) : ListingDoc :=
  {| l_farmer_id := l_farmer_id l;
     l_title := l_title l;
     l_category := l_category l;
     l_description := l_description l;
     l_unit := l_unit l;
     l_quantity_available := l_quantity_available l;
     l_unit_price := l_unit_price l;
     l_region := l_region l;
     l_quality_grade := l_quality_grade l;
     l_status := Some s |}.

(** [schemas.Message(...)], dumped as the document to store. *)
Definition MessageSchema (sender_id recipient_id body : string)
  (related_order_id : option string) : MessageDoc :=
  {| m_sender_id := sender_id;
     m_recipient_id := recipient_id;
     m_body := body;
     m_related_order_id := related_order_id |}.

Section MoreRoutes.

Context (L : Lib).

Definition create_listing (body : CreateListingBody) (current : AuthedUser) (now : Z)
  : M string :=
  if negb (role_in current ["farmer"; "admin"])
  then raise (HTTPException 403 "Only farmers can create listings")
  else
    listing <- lift (ListingSchema (au_id current) (cl_title body)
                       (or_else (cl_category body) "other")
                       (cl_description body)
                       (or_else (cl_unit body) "kg")
                       (cl_quantity_available body) (cl_unit_price body)
                       (cl_region body) (cl_quality_grade body) "active") ;;
    listing_id <- create_document L listing_c listing now ;;
    ret listing_id.

Definition update_listing_status (listing_id : string) (body : VerifyListingBody)
  (current : AuthedUser) : M StatusResponse :=
  if negb (role_in current ["officer"; "admin"])
  then raise (HTTPException 403 "Only officers/admin can update status")
  else
    o <- oid L listing_id ;;
    matched_count <- update_one listing_c (fun d => N.eqb (_id d) o)
                       (set_status (status_str (vb_status body))) ;;
    if Nat.eqb matched_count 0
    then raise (HTTPException 404 "Listing not found")
    else ret {| sr_id := listing_id; sr_status := status_str (vb_status body) |}.

(** Modelled from the spec: [create_document] on the collection [message]
    ([database.py] is not among the sources): a fresh identifier, the
    creation time [now], the record appended. *)
Definition send_message (body : MessageBody) (current : AuthedUser) (now : Z)
  (st : mailstore) : mailstore * result string :=
  let msg := MessageSchema (au_id current) (mb_recipient_id body) (mb_body body)
               (mb_related_order_id body) in
  let i := next_oid (core st) in
  ({| core := bump (core st);
      message := message st ++ [{| _id := i; created_at := now; fields := msg |}] |},
   Ok (oid_str L i)).

Definition inbox (current : AuthedUser) (st : mailstore)
  : mailstore * result (list (serialized MessageDoc)) :=
  let docs := sort_desc
                (filter (fun d => String.eqb (m_recipient_id (fields d)) (au_id current))
                   (message st)) in
  (st, Ok (map (serialize_doc L) docs)).

End MoreRoutes.

(** ** Vocabulary for these routes *)

Definition farmer_or_admin (current : AuthedUser) : Prop :=
  au_role current = "farmer" \/ au_role current = "admin".

Definition officer_or_admin (current : AuthedUser) : Prop :=
  au_role current = "officer" \/ au_role current = "admin".

(** The body of a listing satisfies the schema. *)
Definition listing_body_ok (body : CreateListingBody) : bool :=
  Listing_valid (or_else (cl_category body) "other") (or_else (cl_unit body) "kg")
    (cl_quantity_available body) (cl_unit_price body) (cl_quality_grade body) "active".

(** The listing that a valid body yields for a caller. *)
Definition new_listing (body : CreateListingBody) (current : AuthedUser) : ListingDoc :=
  {| l_farmer_id := au_id current;
     l_title := Some (cl_title body);
     l_category := Some (or_else (cl_category body) "other");
     l_description := cl_description body;
     l_unit := Some (or_else (cl_unit body) "kg");
     l_quantity_available := cl_quantity_available body;
     l_unit_price := Some (cl_unit_price body);
     l_region := cl_region body;
     l_quality_grade := cl_quality_grade body;
     l_status := Some "active" |}.

(** The store after one more document in a collection. *)
Definition added {T} (c : collection T) (data : T) (now : Z) (db : database) : database :=
  bump (set_docs c (docs c db ++ [{| _id := next_oid db; created_at := now; fields := data |}]) db).

(** No stored document of the list carries the identifier [o]. *)
Definition id_unused {T} (o : OID) (l : list (stored T)) : Prop :=
  Forall (fun d => _id d <> o) l.

(** Every stored document of the list is older than [now]. *)
Definition all_older {T} (now : Z) (l : list (stored T)) : Prop :=
  Forall (fun d => (created_at d < now)%Z) l.

(** A user record but for its token. *)
Definition without_token (d : stored UserDoc) : OID * Z * UserDoc :=
  (_id d, created_at d, set_token "" (fields d)).


(** A given bound on the price holds of a listing. *)
Definition price_within (lo hi : option float) (l : ListingDoc) : Prop :=
  exists p, l_unit_price l = Some p
    /\ (forall a, lo = Some a -> fle a p = true)
    /\ (forall b, hi = Some b -> fle p b = true).

(** The identifiers of a collection are distinct and below the source of
    fresh identifiers. *)
Definition ids_ok {T} (n : OID) (l : list (stored T)) : Prop :=
  Forall (fun i => (i < n)%N) (map _id l) /\ NoDup (map _id l).

Definition store_ok (db : database) : Prop :=
  ids_ok (next_oid db) (user db)
  /\ ids_ok (next_oid db) (listing db)
  /\ ids_ok (next_oid db) (order db).


(** ** Sample data for these routes *)

Module SampleMore.

Definition yam_body : CreateListingBody :=
  {| cl_title := "Yam";
     cl_category := None;
     cl_description := None;
     cl_unit := Some "";
     cl_quantity_available := mkfloat 40 0;
     cl_unit_price := mkfloat 3 (-1);
     cl_region := Some "North";
     cl_quality_grade := Some "A" |}.

Definition bad_body : CreateListingBody :=
  {| cl_title := "Yam";
     cl_category := None;
     cl_description := None;
     cl_unit := None;
     cl_quantity_available := mkfloat 40 0;
     cl_unit_price := mkfloat (-1) 0;
     cl_region := None;
     cl_quality_grade := None |}.

(** A body whose unit price is not a number. *)
Definition nan_body : CreateListingBody :=
  {| cl_title := "Yam";
     cl_category := None;
     cl_description := None;
     cl_unit := None;
     cl_quantity_available := mkfloat 40 0;
     cl_unit_price := S754_nan;
     cl_region := None;
     cl_quality_grade := None |}.

Definition olu_user : AuthedUser :=
  {| au_id := Sample.print_oid 3%N; au_role := "officer"; au_name := Some "Olu" |}.

Definition withdraw : VerifyListingBody := {| vb_status := Sold |}.

(** The sample store once the maize is sold. *)
Definition db_sold : database :=
  fst (update_listing_status Sample.lib Sample.maize_id withdraw olu_user Sample.db0).

(** The sample store once ten units of maize are ordered. *)
Definition db_ordered : database :=
  fst (create_order Sample.lib (Sample.cart [Sample.item Sample.maize_id 10])
         Sample.bola_user 200 Sample.db0).

Definition note (sender recipient : N) (text : string) : MessageDoc :=
  MessageSchema (Sample.print_oid sender) (Sample.print_oid recipient) text None.

Definition mail0 : mailstore :=
  {| core := Sample.db0;
     message := [ {| _id := 20%N; created_at := 120%Z; fields := note 1 2 "Maize is in" |};
                  {| _id := 21%N; created_at := 121%Z; fields := note 2 1 "I take ten" |} ] |}.


Definition nan_maize : OrderItemIn :=
  {| listing_id := Sample.maize_id; quantity := S754_nan |}.

Definition endless_bare : OrderItemIn :=
  {| listing_id := Sample.bare_id; quantity := S754_infinity false |}.

Definition hello : MessageBody :=
  {| mb_recipient_id := Sample.print_oid 1%N;
     mb_body := "Hello";
     mb_related_order_id := None |}.

End SampleMore.

(* ===================================================================== *)
(** * Facts about floats *)
(* ===================================================================== *)

Section FloatFacts.

Local Open Scope Z_scope.

Lemma shr_1_nonneg (mrs : shr_record) : 0 <= shr_m mrs -> 0 <= shr_m (shr_1 mrs).
Proof.
  destruct mrs as [m r s]. cbn [shr_m]. intros H.
  destruct m as [| p | p]; [cbn; lia | | lia].
  destruct p; cbn; lia.
Qed.

Lemma iter_pos_shr_1_nonneg (p : positive) :
  forall mrs, 0 <= shr_m mrs -> 0 <= shr_m (iter_pos shr_1 p mrs).
Proof.
  induction p as [p IH | p IH |]; intros mrs H; cbn [iter_pos].
  - apply IH, IH, shr_1_nonneg, H.
  - apply IH, IH, H.
  - apply shr_1_nonneg, H.
Qed.

Lemma shr_fexp_nonneg (m e : Z) (l : location) :
  0 <= m -> 0 <= shr_m (fst (shr_fexp prec emax m e l)).
Proof.
  intros H. unfold shr_fexp, shr.
  assert (H0 : 0 <= shr_m (shr_record_of_loc m l)).
  { destruct l as [| c]; [exact H | destruct c; exact H]. }
  destruct (Z.sub _ e) as [| p | p]; cbn [fst]; trivial.
  now apply iter_pos_shr_1_nonneg.
Qed.

Lemma round_nearest_even_nonneg (m : Z) (l : location) :
  0 <= m -> 0 <= round_nearest_even m l.
Proof.
  intros H. unfold round_nearest_even.
  destruct l as [| c]; [exact H |].
  destruct c; [destruct (Z.even m) | |]; lia.
Qed.

(** Rounding a magnitude that is not negative never makes a NaN. *)
Lemma binary_round_aux_positive_or_zero (m e : Z) (l : location) :
  0 <= m -> positive_or_zero (binary_round_aux prec emax false m e l) = true.
Proof.
  intros H. unfold binary_round_aux.
  pose proof (shr_fexp_nonneg m e l H) as H1.
  destruct (shr_fexp prec emax m e l) as [mrs e1]. cbn [fst] in H1.
  pose proof (shr_fexp_nonneg _ e1 loc_Exact
                (round_nearest_even_nonneg _ (loc_of_shr_record mrs) H1)) as H2.
  destruct (shr_fexp prec emax _ e1 loc_Exact) as [mrs' e2]. cbn [fst] in H2.
  destruct (shr_m mrs') as [| p | p]; [reflexivity | | lia].
  destruct (Z.leb e2 (Z.sub emax prec)); reflexivity.
Qed.

Lemma positive_or_zero_at_least (x : float) :
  positive_or_zero x = true -> at_least_zero x.
Proof. destruct x as [[] | [] | | [] m e]; try discriminate; reflexivity. Qed.

Lemma at_least_zero_not_below (x : float) : at_least_zero x -> flt x fzero = false.
Proof. destruct x as [[] | [] | | [] m e]; try discriminate; reflexivity. Qed.

Lemma above_zero_not_le (x : float) : flt fzero x = true -> fle x fzero = false.
Proof. destruct x as [[] | [] | | [] m e]; try discriminate; reflexivity. Qed.


(** The amount of a line: a price [>= 0] times a finite quantity [> 0]. *)
Lemma fmul_at_least_zero (p q : float) :
  at_least_zero p -> flt fzero q = true -> is_finite q = true ->
  at_least_zero (fmul p q).
Proof.
  destruct p as [[] | [] | | [] mp ep], q as [[] | [] | | [] mq eq];
    try discriminate; try reflexivity.
  intros _ _ _. apply positive_or_zero_at_least.
  apply binary_round_aux_positive_or_zero. cbn. lia.
Qed.

Lemma fadd_positive_or_zero (t y : float) :
  positive_or_zero t = true -> at_least_zero y ->
  positive_or_zero (fadd t y) = true.
Proof.
  destruct t as [[] | [] | | [] mt et], y as [[] | [] | | [] my ey];
    try discriminate; try reflexivity.
  intros _ _. unfold fadd, SFadd, cond_Zopp.
  cbn [Z.add binary_normalize]. unfold binary_round.
  destruct (shl_align _ _ _) as [mz ez].
  apply binary_round_aux_positive_or_zero. lia.
Qed.

Lemma fadd_zero_r (t : float) :
  positive_or_zero t = true -> fadd t fzero = t.
Proof. destruct t as [[] | [] | | [] mt et]; try discriminate; reflexivity. Qed.

Lemma div_half_even_spec (num den : Z) :
  0 <= num -> 0 < den ->
  let n := div_half_even num den in
  0 <= n
  /\ Z.abs (2 * (n * den) - 2 * num) <= den
  /\ (Z.abs (2 * (n * den) - 2 * num) = den -> Z.even n = true).
Proof.
  intros Hn Hd. unfold div_half_even.
  pose proof (Z.div_mod num den ltac:(lia)) as E.
  pose proof (Z.mod_pos_bound num den Hd) as B.
  pose proof (Z.div_pos num den Hn Hd) as Q.
  set (q := num / den) in *. set (r := num mod den) in *.
  assert (Eq1 : q * den = num - r) by lia.
  destruct (Z.compare_spec (2 * r) den) as [C | C | C]; cbv zeta.
  - destruct (Z.even q) eqn:Ev.
    + repeat split; trivial; lia.
    + assert (Eq2 : (q + 1) * den = num - r + den) by lia.
      repeat split; try lia.
      intros _. replace (q + 1) with (Z.succ q) by lia.
      rewrite Z.even_succ, <- Z.negb_even, Ev. reflexivity.
  - repeat split; try lia.
  - assert (Eq2 : (q + 1) * den = num - r + den) by lia.
    repeat split; try lia.
Qed.

Lemma hundredths_nearest (m : positive) (e : Z) :
  nearest_hundredths (hundredths m e) m e.
Proof.
  unfold nearest_hundredths, hundredths.
  destruct e as [| p | p].
  - cbv zeta. repeat split; try lia.
  - cbv zeta. assert (0 < 2 ^ Z.pos p) by (apply Z.pow_pos_nonneg; lia).
    repeat split; try nia.
  - apply div_half_even_spec; [lia |].
    rewrite Z.pow_pos_fold. apply Z.pow_pos_nonneg; lia.
Qed.

(** [round2] rounds to the nearest number of hundredths, ties to the even
    one, and answers the double nearest to that decimal. *)
Lemma round2_rounds_to_cents (x : float) : rounds_to_cents x (round2 x).
Proof.
  destruct x as [s | s | | s m e]; try reflexivity.
  cbn [rounds_to_cents round2].
  exists (hundredths m e). split; [apply hundredths_nearest | reflexivity].
Qed.

Lemma round2_positive_or_zero (x : float) :
  positive_or_zero x = true -> positive_or_zero (round2 x) = true.
Proof.
  destruct x as [[] | [] | | [] m e]; try discriminate; try reflexivity.
  intros _. unfold round2.
  destruct (hundredths m e) as [| n | n]; try reflexivity.
  unfold fdiv, SFdiv. cbn [xorb].
  destruct (SFdiv_core_binary _ _ _ _ _ _) as [[mz ez] lz] eqn:E.
  apply binary_round_aux_positive_or_zero.
  unfold SFdiv_core_binary in E.
  cbv zeta in E.
  match type of E with
  | context [Z.div_eucl ?a ?b] =>
      pose proof (Z.div_pos a b) as Hq;
      unfold Z.div in Hq; destruct (Z.div_eucl a b) as [q r]
  end.
  injection E as <- _ _.
  apply Hq; [| lia].
  match goal with |- 0 <= match ?d with _ => _ end => destruct d end; try lia.
  apply Z.shiftl_nonneg. lia.
Qed.

End FloatFacts.

(** A missing price makes a line of amount [0.0] when the quantity is an
    ordinary positive number. *)
Lemma fmul_zero_finite (q : float) :
  is_finite q = true -> fle q fzero = false -> fmul (float_of_int 0) q = fzero.
Proof.
  destruct q as [s | s | | s m e]; try discriminate.
  destruct s; [discriminate | reflexivity].
Qed.

(* ===================================================================== *)
(** * Facts about the gateway *)
(* ===================================================================== *)

Section GatewayFacts.

Context {T : Type}.

Lemma insert_desc_perm (d : stored T) (l : list (stored T)) :
  Permutation (insert_desc d l) (d :: l).
Proof.
  induction l as [| x r IH]; cbn.
  - apply Permutation_refl.
  - destruct (created_at d <? created_at x)%Z.
    + eapply perm_trans; [apply perm_skip, IH | apply perm_swap].
    + apply Permutation_refl.
Qed.

Lemma sort_desc_perm (l : list (stored T)) : Permutation (sort_desc l) l.
Proof.
  induction l as [| x r IH]; cbn.
  - constructor.
  - eapply perm_trans; [apply insert_desc_perm | now apply perm_skip].
Qed.

Lemma insert_desc_hd (d a : stored T) (l : list (stored T)) :
  desc a d -> HdRel desc a l -> HdRel desc a (insert_desc d l).
Proof.
  intros Had Hl.
  destruct l as [| x r]; cbn.
  - now constructor.
  - destruct (created_at d <? created_at x)%Z; constructor; trivial.
    now inversion Hl.
Qed.

Lemma insert_desc_sorted (d : stored T) (l : list (stored T)) :
  Sorted desc l -> Sorted desc (insert_desc d l).
Proof.
  induction 1 as [| x r Hr IH Hhd]; cbn.
  - repeat constructor.
  - destruct (created_at d <? created_at x)%Z eqn:E.
    + constructor; [exact IH |].
      apply insert_desc_hd; [| exact Hhd].
      unfold desc. apply Z.ltb_lt in E. lia.
    + constructor; [now constructor |].
      constructor. unfold desc. apply Z.ltb_ge in E. exact E.
Qed.

Lemma sort_desc_sorted (l : list (stored T)) : StronglySorted desc (sort_desc l).
Proof.
  apply Sorted_StronglySorted.
  - intros a b c Hab Hbc. unfold desc in *. lia.
  - induction l as [| x r IH]; cbn; [constructor | now apply insert_desc_sorted].
Qed.

Lemma In_sort_desc (d : stored T) (l : list (stored T)) :
  In d (sort_desc l) <-> In d l.
Proof.
  split; apply Permutation_in;
    [apply sort_desc_perm | apply Permutation_sym, sort_desc_perm].
Qed.

Lemma In_firstn (n : nat) (d : stored T) (l : list (stored T)) :
  In d (firstn n l) -> In d l.
Proof.
  revert l; induction n as [| n IH]; intros [| x r]; cbn; try tauto.
  intros [-> | H]; [now left | right; now apply IH].
Qed.

(** What a query returns was stored and is accepted by the filter. *)
Lemma run_query_In (cur : cursor T) (db : database) (d : stored T) :
  In d (run_query cur db) ->
  In d (docs (cur_coll cur) db) /\ cur_filter cur d = true.
Proof.
  unfold run_query. intros H.
  apply filter_In.
  destruct (cur_limit cur) as [n |]; [apply In_firstn in H |];
    (destruct (cur_sort cur); [apply (proj1 (In_sort_desc _ _)) in H |]; exact H).
Qed.

End GatewayFacts.

(* ===================================================================== *)
(** * Facts about the order loop *)
(* ===================================================================== *)

Lemma opt_str_eqb_eq (a : option string) (b : string) :
  opt_str_eqb a (Some b) = true <-> a = Some b.
Proof.
  destruct a as [x |]; cbn; [| split; discriminate].
  rewrite String.eqb_eq. split; [now intros -> | now intros [= ->]].
Qed.

Section OrderFacts.

Context (L : Lib).

(** One turn of the loop on an item that passes. *)
Lemma order_loop_step (db : database) (it : OrderItemIn) (rest : list OrderItemIn)
  (acc : list OrderItem) (t : float) (l : stored ListingDoc) :
  listing_of L db it = Some l ->
  is_active l ->
  fle (quantity it) fzero = false ->
  order_loop L (it :: rest) acc t db
  = order_loop L rest (acc ++ [snapshot it l])
      (fadd t (line_total (snapshot it l))) db.
Proof.
  unfold listing_of, is_active. intros Hl Ha Hq.
  cbn [order_loop]. unfold bind at 1. unfold oid.
  destruct (ObjectId L (listing_id it)) as [o |]; [| discriminate].
  unfold ret at 1. unfold bind at 1. unfold find_one. cbn [docs listing_c].
  rewrite Hl, Ha, Hq. reflexivity.
Qed.

(** The loop only reads the store. *)
Lemma order_loop_state (its : list OrderItemIn) :
  forall acc t db, fst (order_loop L its acc t db) = db.
Proof.
  induction its as [| it rest IH]; intros acc t db; [reflexivity |].
  cbn [order_loop]. unfold bind at 1. unfold oid.
  destruct (ObjectId L (listing_id it)) as [o |]; [| reflexivity].
  unfold ret at 1. unfold bind at 1. unfold find_one. cbn [docs listing_c].
  destruct (List.find _ (listing db)) as [l |]; [| reflexivity].
  destruct (negb _); [reflexivity |].
  destruct (fle _ _); [reflexivity |].
  apply IH.
Qed.

Lemma order_loop_app (db : database) (pre rest : list OrderItemIn) :
  Forall (passes L db) pre ->
  forall acc t,
    order_loop L (pre ++ rest) acc t db
    = order_loop L rest (acc ++ snapshots L db pre)
        (sum_from t (snapshots L db pre)) db.
Proof.
  induction 1 as [| it pre (l & Hl & Ha & Hq) Hpre IH]; intros acc t.
  - cbn. now rewrite app_nil_r.
  - cbn [app snapshots]. rewrite Hl.
    rewrite (order_loop_step db it (pre ++ rest) acc t l Hl Ha Hq).
    rewrite IH. cbn [sum_from fold_left]. now rewrite <- app_assoc.
Qed.

Lemma order_loop_passes (db : database) (its : list OrderItemIn) :
  Forall (passes L db) its ->
  order_loop L its [] fzero db = (db, Ok (snapshots L db its, line_sum (snapshots L db its))).
Proof.
  intros H.
  rewrite <- (app_nil_r its) at 1.
  rewrite (order_loop_app db its [] H). reflexivity.
Qed.

(** An item that fails stops the loop. *)
Lemma order_loop_fails (db : database) (its : list OrderItemIn) :
  Exists (fails L db) its ->
  forall acc t, exists e, order_loop L its acc t db = (db, Raise e).
Proof.
  induction its as [| it rest IH]; intros Hex acc t; [inversion Hex |].
  cbn [order_loop]. unfold bind at 1. unfold oid.
  destruct (ObjectId L (listing_id it)) as [o |] eqn:Ho; [| eexists; reflexivity].
  unfold ret at 1. unfold bind at 1. unfold find_one. cbn [docs listing_c].
  destruct (List.find _ (listing db)) as [l |] eqn:Hf; [| eexists; reflexivity].
  destruct (opt_str_eqb (l_status (fields l)) (Some "active")) eqn:Hs;
    cbn [negb]; [| eexists; reflexivity].
  destruct (fle (quantity it) fzero) eqn:Hq; [eexists; reflexivity |].
  apply IH.
  inversion Hex as [x r Hfail | x r Hr]; subst; [| exact Hr].
  exfalso. destruct Hfail as [Hm | o' Ho' Hno | l' Hl' Hna | Hq'].
  - congruence.
  - rewrite Ho in Ho'. injection Ho' as <-. congruence.
  - unfold listing_of in Hl'. rewrite Ho, Hf in Hl'. injection Hl' as <-.
    apply Hna. unfold is_active.
    destruct (l_status (fields l)) as [s |]; [| discriminate].
    cbn in Hs. apply String.eqb_eq in Hs. now subst.
  - congruence.
Qed.

Lemma valid_item_passes (db : database) (it : OrderItemIn) :
  valid_item L db it -> passes L db it.
Proof.
  intros (l & Hl & Ha & Hv). exists l. repeat split; trivial.
  unfold OrderItem_valid in Hv. apply andb_prop in Hv as [Hq _].
  now apply above_zero_not_le.
Qed.

Lemma snapshots_valid (db : database) (its : list OrderItemIn) :
  Forall (valid_item L db) its ->
  forallb OrderItem_valid (snapshots L db its) = true.
Proof.
  induction 1 as [| it rest (l & Hl & Ha & Hv) Hrest IH]; [reflexivity |].
  cbn [snapshots]. rewrite Hl. cbn [forallb]. now rewrite Hv, IH.
Qed.

Lemma snapshots_finite (db : database) (its : list OrderItemIn) :
  finite_quantities its ->
  Forall (fun i => is_finite (oi_quantity i) = true) (snapshots L db its).
Proof.
  induction 1 as [| it rest Hit _ IH]; [constructor |].
  cbn [snapshots]. destruct (listing_of L db it); [| exact IH].
  constructor; [exact Hit | exact IH].
Qed.

(** The amount of a valid line of finite quantity is a number [>= 0]. *)
Lemma line_total_at_least_zero (i : OrderItem) :
  OrderItem_valid i = true -> is_finite (oi_quantity i) = true ->
  at_least_zero (line_total i).
Proof.
  unfold OrderItem_valid. intros Hv Hfin. apply andb_prop in Hv as [Hq Hp].
  now apply fmul_at_least_zero.
Qed.

(** Running totals over valid lines of finite quantity stay numbers
    [>= 0], and never turn into the negative zero. *)
Lemma sum_from_positive_or_zero (l : list OrderItem) :
  forallb OrderItem_valid l = true ->
  Forall (fun i => is_finite (oi_quantity i) = true) l ->
  forall t, positive_or_zero t = true -> positive_or_zero (sum_from t l) = true.
Proof.
  induction l as [| i r IH]; intros Hv Hfin t Ht; [exact Ht |].
  cbn [forallb] in Hv. apply andb_prop in Hv as [Hi Hr].
  inversion Hfin as [| x y Hfi Hfr]; subst.
  cbn [sum_from fold_left]. apply (IH Hr Hfr).
  apply fadd_positive_or_zero; [exact Ht |].
  now apply line_total_at_least_zero.
Qed.

(** The total of a valid call with finite quantities satisfies the
    constraint of [schemas.Order]. *)
Lemma total_accepted (db : database) (its : list OrderItemIn) :
  Forall (valid_item L db) its ->
  finite_quantities its ->
  at_least_zero (round2 (line_sum (snapshots L db its))).
Proof.
  intros Hval Hfin.
  apply positive_or_zero_at_least, round2_positive_or_zero.
  apply sum_from_positive_or_zero;
    [now apply snapshots_valid | now apply snapshots_finite | reflexivity].
Qed.

End OrderFacts.


(* ===================================================================== *)
(** * Order placement *)
(* ===================================================================== *)

Section OrderClaims.

Context (L : Lib).

Lemma buyer_or_admin_role_in (current : AuthedUser) :
  buyer_or_admin current <-> role_in current ["buyer"; "admin"] = true.
Proof.
  unfold buyer_or_admin, role_in. cbn [existsb].
  split.
  - intros [-> | ->]; reflexivity.
  - intros H. apply orb_prop in H as [H | H]; [left; now apply String.eqb_eq |].
    apply orb_prop in H as [H | H]; [right; now apply String.eqb_eq | discriminate].
Qed.

(** The order a valid call stores, and what it answers. *)
Lemma create_order_valid (db : database) (body : CreateOrderBody)
  (current : AuthedUser) (now : Z) :
  buyer_or_admin current ->
  items body <> [] ->
  Forall (valid_item L db) (items body) ->
  finite_quantities (items body) ->
  create_order L body current now db
  = (bump (set_docs order_c
             (order db ++
                [{| _id := next_oid db; created_at := now;
                    fields :=
                      {| o_buyer_id := au_id current;
                         o_items := snapshots L db (items body);
                         o_total_amount := round2 (line_sum (snapshots L db (items body)));
                         o_status := "pending";
                         o_delivery_terms := delivery_terms body;
                         o_payment_method := payment_method body |} |}]) db),
     Ok {| or_id := oid_str L (next_oid db);
           or_total := round2 (line_sum (snapshots L db (items body)));
           or_status := "pending" |}).
Proof.
  intros Hrole Hne Hval Hfin.
  apply buyer_or_admin_role_in in Hrole.
  unfold create_order. rewrite Hrole. cbn [negb].
  destruct (items body) as [| i r] eqn:E; [congruence |].
  rewrite <- E in *.
  unfold bind at 1.
  rewrite order_loop_passes
    by (eapply Forall_impl; [apply valid_item_passes | exact Hval]).
  unfold bind at 1. unfold lift, OrderSchema.
  rewrite (snapshots_valid L db _ Hval).
  pose proof (total_accepted L db _ Hval Hfin) as Hnn.
  unfold at_least_zero in Hnn. rewrite Hnn. reflexivity.
Qed.

Lemma snapshots_app (db : database) (a b : list OrderItemIn) :
  snapshots L db (a ++ b) = (snapshots L db a ++ snapshots L db b)%list.
Proof.
  induction a as [| it a IH]; [reflexivity |].
  cbn [app snapshots]. destruct (listing_of L db it); cbn; now rewrite IH.
Qed.

Lemma snapshots_length (db : database) (its : list OrderItemIn) :
  Forall (valid_item L db) its ->
  List.length (snapshots L db its) = List.length its.
Proof.
  induction 1 as [| it rest (l & Hl & _) _ IH]; [reflexivity |].
  cbn [snapshots]. rewrite Hl. cbn. now rewrite IH.
Qed.

(** A loop that returns has seen every item pass. *)
Lemma order_loop_ok_inv (db : database) (its : list OrderItemIn) :
  forall acc t db' out total,
    order_loop L its acc t db = (db', Ok (out, total)) ->
    Forall (passes L db) its
    /\ out = (acc ++ snapshots L db its)%list
    /\ total = sum_from t (snapshots L db its).
Proof.
  induction its as [| it rest IH]; intros acc t db' out total H.
  - cbn in H. injection H as _ <- <-.
    split; [constructor |]. split; [now rewrite app_nil_r | reflexivity].
  - cbn [order_loop] in H. unfold bind at 1 in H. unfold oid in H.
    destruct (ObjectId L (listing_id it)) as [o |] eqn:Ho; [| discriminate].
    unfold ret at 1 in H. unfold bind at 1 in H. unfold find_one in H.
    cbn [docs listing_c] in H.
    destruct (List.find _ (listing db)) as [l |] eqn:Hf; [| discriminate].
    destruct (opt_str_eqb (l_status (fields l)) (Some "active")) eqn:Hs;
      cbn [negb] in H; [| discriminate].
    destruct (fle (quantity it) fzero) eqn:Hq; [discriminate |].
    assert (Hl : listing_of L db it = Some l) by (unfold listing_of; now rewrite Ho).
    apply IH in H as (Hrest & Hout & Htot).
    split.
    + constructor; [| exact Hrest].
      exists l. split; [exact Hl |]. split; [now apply opt_str_eqb_eq | exact Hq].
    + cbn [snapshots]. rewrite Hl. split.
      * rewrite Hout. now rewrite <- app_assoc.
      * exact Htot.
Qed.

(** A call that returns has passed every check and every constraint, and
    has appended one order. *)
Lemma create_order_ok_inv (db db' : database) (body : CreateOrderBody)
  (current : AuthedUser) (now : Z) (r : OrderResponse) :
  create_order L body current now db = (db', Ok r) ->
  buyer_or_admin current
  /\ items body <> []
  /\ Forall (passes L db) (items body)
  /\ forallb OrderItem_valid (snapshots L db (items body)) = true
  /\ at_least_zero (round2 (line_sum (snapshots L db (items body))))
  /\ db' = added order_c
             {| o_buyer_id := au_id current;
                o_items := snapshots L db (items body);
                o_total_amount := round2 (line_sum (snapshots L db (items body)));
                o_status := "pending";
                o_delivery_terms := delivery_terms body;
                o_payment_method := payment_method body |} now db
  /\ r = {| or_id := oid_str L (next_oid db);
            or_total := round2 (line_sum (snapshots L db (items body)));
            or_status := "pending" |}.
Proof.
  unfold create_order.
  destruct (role_in current ["buyer"; "admin"]) eqn:Hrole; cbn [negb]; [| discriminate].
  destruct (items body) as [| i rest] eqn:E; [discriminate |].
  unfold bind at 1.
  pose proof (order_loop_state L (i :: rest) [] fzero db) as Hst.
  destruct (order_loop L (i :: rest) [] fzero db) as [db1 [[out total] | e]] eqn:Hloop;
    [| discriminate].
  cbn [fst] in Hst. subst db1.
  apply order_loop_ok_inv in Hloop as (Hpass & -> & ->).
  cbn [app].
  change (sum_from fzero (snapshots L db (i :: rest)))
    with (line_sum (snapshots L db (i :: rest))).
  unfold bind at 1. unfold lift, OrderSchema.
  destruct (forallb OrderItem_valid (snapshots L db (i :: rest))) eqn:Hv;
    cbn [andb]; [| discriminate].
  destruct (fle fzero (round2 (line_sum (snapshots L db (i :: rest))))) eqn:Ht;
    [| discriminate].
  unfold bind, create_document, ret. intros [= <- <-].
  split; [now apply buyer_or_admin_role_in |].
  split; [discriminate |].
  repeat split; trivial.
Qed.

Lemma snapshots_length_passes (db : database) (its : list OrderItemIn) :
  Forall (passes L db) its -> List.length (snapshots L db its) = List.length its.
Proof.
  induction 1 as [| it rest (l & Hl & _) _ IH]; [reflexivity |].
  cbn [snapshots]. rewrite Hl. cbn. now rewrite IH.
Qed.



(** C2: when the item list is empty or one of the items fails a check
    (malformed identifier, no such listing, listing not active, quantity
    not above zero), the call raises and the store, hence the order
    collection, is what it was; more generally no call that raises has
    written anything. *)
Theorem C2_order_all_or_nothing (db : database) (body : CreateOrderBody)
  (current : AuthedUser) (now : Z) :
  (items body = [] \/ Exists (fails L db) (items body) ->
   exists e db', create_order L body current now db = (db', Raise e)
                 /\ order db' = order db /\ db' = db)
  /\ (forall db' e, create_order L body current now db = (db', Raise e) -> db' = db).
Proof.
  split.
  - intros H. unfold create_order.
    destruct (negb (role_in current ["buyer"; "admin"])).
    { do 2 eexists; repeat split; reflexivity. }
    destruct H as [H | H].
    { rewrite H. do 2 eexists; repeat split; reflexivity. }
    destruct (items body) as [| i r] eqn:E; [inversion H |].
    unfold bind at 1.
    destruct (order_loop_fails L db (i :: r) H [] fzero) as [e He].
    rewrite He. exists e, db. repeat split; reflexivity.
  - intros db' e. unfold create_order.
    destruct (negb (role_in current ["buyer"; "admin"])).
    { intros [= <- _]. reflexivity. }
    destruct (items body) as [| i r] eqn:E.
    { intros [= <- _]. reflexivity. }
    unfold bind at 1.
    pose proof (order_loop_state L (i :: r) [] fzero db) as Hst.
    destruct (order_loop L (i :: r) [] fzero db) as [db1 [[snaps total] | e1]];
      cbn [fst] in Hst; subst db1.
    + unfold bind at 1. unfold lift.
      destruct (OrderSchema _ _ _ _ _ _) as [doc | e2].
      * discriminate.
      * intros [= <- _]. reflexivity.
    + intros [= <- _]. reflexivity.
Qed.

Lemma create_order_raise (db db1 : database) (body : CreateOrderBody)
  (current : AuthedUser) (now : Z) (e : exn) :
  buyer_or_admin current ->
  items body <> [] ->
  order_loop L (items body) [] fzero db = (db1, Raise e) ->
  create_order L body current now db = (db1, Raise e).
Proof.
  intros Hrole Hne Hloop.
  apply buyer_or_admin_role_in in Hrole.
  unfold create_order. rewrite Hrole. cbn [negb].
  destruct (items body) as [| i r] eqn:E; [congruence |].
  unfold bind at 1. now rewrite Hloop.
Qed.

(** Items that pass the loop with a line that breaks the [OrderItem]
    schema are refused by the [Order] constructor, and nothing is stored. *)
Lemma create_order_line_refused (db : database) (body : CreateOrderBody)
  (current : AuthedUser) (now : Z) :
  buyer_or_admin current ->
  items body <> [] ->
  Forall (passes L db) (items body) ->
  forallb OrderItem_valid (snapshots L db (items body)) = false ->
  create_order L body current now db = (db, Raise (Uncaught "ValidationError")).
Proof.
  intros Hrole Hne Hpass Hbad.
  apply buyer_or_admin_role_in in Hrole.
  unfold create_order. rewrite Hrole. cbn [negb].
  destruct (items body) as [| i r] eqn:E; [congruence |].
  rewrite <- E in *.
  unfold bind at 1. rewrite (order_loop_passes L db _ Hpass).
  unfold bind at 1. unfold lift, OrderSchema.
  rewrite Hbad. reflexivity.
Qed.

(** C6: the items are checked in input order and, for one item, the checks
    come in a fixed order.  When the items before [it] all pass, a
    malformed identifier of [it] is answered 400, else a missing listing
    404 "Listing not found: <id>", else a listing that is not active 400
    "Listing not active: <id>", else a quantity [<= 0] 400 "Quantity must
    be > 0", whatever the later checks and the later items would give.
    A quantity that is neither [<= 0] nor [> 0], that is a NaN, is not
    caught by the last check: when the later items pass too, the call ends
    in the validation error of the [Order] constructor, which is not a
    400. *)
Theorem C6_first_failing_check (db : database) (body : CreateOrderBody)
  (current : AuthedUser) (now : Z) (pre post : list OrderItemIn) (it : OrderItemIn) :
  buyer_or_admin current ->
  items body = (pre ++ it :: post)%list ->
  Forall (passes L db) pre ->
  (ObjectId L (listing_id it) = None ->
   create_order L body current now db
   = (db, Raise (HTTPException 400 "Invalid id format")))
  /\ (forall o,
        ObjectId L (listing_id it) = Some o ->
        List.find (fun d => N.eqb (_id d) o) (listing db) = None ->
        create_order L body current now db
        = (db, Raise (HTTPException 404 ("Listing not found: " ++ listing_id it))))
  /\ (forall l,
        listing_of L db it = Some l ->
        ~ is_active l ->
        create_order L body current now db
        = (db, Raise (HTTPException 400 ("Listing not active: " ++ listing_id it))))
  /\ (forall l,
        listing_of L db it = Some l ->
        is_active l ->
        fle (quantity it) fzero = true ->
        create_order L body current now db
        = (db, Raise (HTTPException 400 "Quantity must be > 0")))
  /\ (forall l,
        listing_of L db it = Some l ->
        is_active l ->
        fle (quantity it) fzero = false ->
        flt fzero (quantity it) = false ->
        Forall (passes L db) post ->
        create_order L body current now db
        = (db, Raise (Uncaught "ValidationError"))
        /\ error_kind (Uncaught "ValidationError") <> BadRequest).
Proof.
  intros Hrole Hitems Hpre.
  assert (Hne : items body <> []) by (rewrite Hitems; now destruct pre).
  split; [| split; [| split; [| split]]].
  - intros Ho. apply create_order_raise; trivial.
    rewrite Hitems, (order_loop_app L db pre _ Hpre).
    cbn [order_loop]. unfold bind at 1. unfold oid. now rewrite Ho.
  - intros o Ho Hf. apply create_order_raise; trivial.
    rewrite Hitems, (order_loop_app L db pre _ Hpre).
    cbn [order_loop]. unfold bind at 1. unfold oid. rewrite Ho.
    unfold ret at 1. unfold bind at 1. unfold find_one. cbn [docs listing_c].
    now rewrite Hf.
  - intros l Hl Hna. apply create_order_raise; trivial.
    rewrite Hitems, (order_loop_app L db pre _ Hpre).
    unfold listing_of in Hl.
    cbn [order_loop]. unfold bind at 1. unfold oid.
    destruct (ObjectId L (listing_id it)) as [o |]; [| discriminate].
    unfold ret at 1. unfold bind at 1. unfold find_one. cbn [docs listing_c].
    rewrite Hl.
    destruct (opt_str_eqb (l_status (fields l)) (Some "active")) eqn:Hs;
      [| reflexivity].
    exfalso. apply Hna. unfold is_active.
    destruct (l_status (fields l)) as [s |]; [| discriminate].
    cbn in Hs. apply String.eqb_eq in Hs. now subst.
  - intros l Hl Ha Hq. apply create_order_raise; trivial.
    rewrite Hitems, (order_loop_app L db pre _ Hpre).
    unfold listing_of in Hl. unfold is_active in Ha.
    cbn [order_loop]. unfold bind at 1. unfold oid.
    destruct (ObjectId L (listing_id it)) as [o |]; [| discriminate].
    unfold ret at 1. unfold bind at 1. unfold find_one. cbn [docs listing_c].
    now rewrite Hl, Ha, Hq.
  - intros l Hl Ha Hq Hnot Hpost.
    split; [| discriminate].
    apply create_order_line_refused; trivial.
    + rewrite Hitems. apply Forall_app. split; [exact Hpre |].
      constructor; [| exact Hpost].
      exists l. split; [exact Hl |]. split; assumption.
    + rewrite Hitems, snapshots_app. cbn [snapshots]. rewrite Hl.
      rewrite forallb_app. cbn [forallb].
      unfold OrderItem_valid at 2. cbn [oi_quantity snapshot]. rewrite Hnot.
      cbn [andb]. apply andb_false_r.
Qed.

Lemma sum_from_app (t : float) (a b : list OrderItem) :
  sum_from t (a ++ b) = sum_from (sum_from t a) b.
Proof. unfold sum_from. apply fold_left_app. Qed.

(** A line of amount [0.0] leaves the total of a valid call with finite
    quantities what it is without the line. *)
Lemma line_sum_skip (a b : list OrderItem) (i : OrderItem) :
  forallb OrderItem_valid a = true ->
  Forall (fun i => is_finite (oi_quantity i) = true) a ->
  line_total i = fzero ->
  line_sum (a ++ i :: b) = line_sum (a ++ b).
Proof.
  intros Hv Hfin Hi.
  change (sum_from fzero (a ++ i :: b) = sum_from fzero (a ++ b)).
  rewrite !sum_from_app. cbn [sum_from fold_left]. rewrite Hi.
  rewrite fadd_zero_r; [reflexivity |].
  now apply sum_from_positive_or_zero.
Qed.

(** C10: in a valid call with finite quantities, an item whose listing
    record has no [unit_price] is stored with unit price [0.0]; its line
    amounts to [0.0] and the total, stored and returned, is the total of the
    other lines.  An item whose listing record has no [title] is stored with
    the title "Produce".  The call succeeds all the same. *)
Theorem C10_missing_price_and_title (db : database) (body : CreateOrderBody)
  (current : AuthedUser) (now : Z) (pre post : list OrderItemIn)
  (it : OrderItemIn) (l : stored ListingDoc) :
  buyer_or_admin current ->
  items body = (pre ++ it :: post)%list ->
  Forall (valid_item L db) (items body) ->
  finite_quantities (items body) ->
  listing_of L db it = Some l ->
  exists db' resp doc s,
    create_order L body current now db = (db', Ok resp)
    /\ order db' = (order db ++ [{| _id := next_oid db; created_at := now; fields := doc |}])%list
    /\ nth_error (o_items doc) (List.length pre) = Some s
    /\ oi_listing_id s = listing_id it
    /\ oi_quantity s = quantity it
    /\ (l_unit_price (fields l) = None ->
        oi_unit_price s = fzero
        /\ line_total s = fzero
        /\ o_total_amount doc = round2 (line_sum (snapshots L db (pre ++ post)))
        /\ or_total resp = round2 (line_sum (snapshots L db (pre ++ post))))
    /\ (l_title (fields l) = None -> oi_title s = "Produce").
Proof.
  intros Hrole Hitems Hval Hfin Hl.
  assert (Hne : items body <> []) by (rewrite Hitems; now destruct pre).
  exists (fst (create_order L body current now db)).
  rewrite (create_order_valid db body current now Hrole Hne Hval Hfin).
  do 2 eexists. exists (snapshot it l).
  split; [reflexivity |]. split; [reflexivity |].
  cbn [o_items o_total_amount or_total fst].
  rewrite Hitems in Hval, Hfin |- *.
  apply Forall_app in Hval as [Hpre Hrest].
  apply Forall_app in Hfin as [Hfpre Hfrest].
  split.
  { rewrite snapshots_app, nth_error_app2
      by (rewrite (snapshots_length db pre Hpre); apply le_n).
    rewrite (snapshots_length db pre Hpre), Nat.sub_diag.
    cbn [snapshots]. now rewrite Hl. }
  split; [reflexivity |]. split; [reflexivity |].
  split.
  - intros Hp.
    assert (Hline : line_total (snapshot it l) = fzero).
    { unfold snapshot, line_total. cbn. rewrite Hp. cbn [dflt].
      apply fmul_zero_finite.
      - now inversion Hfrest.
      - inversion Hrest as [| x r Hit _]; subst.
        apply valid_item_passes in Hit. destruct Hit as (l' & _ & _ & Hq). exact Hq. }
    split; [unfold snapshot; cbn; now rewrite Hp |].
    split; [exact Hline |].
    assert (Hsum : line_sum (snapshots L db (pre ++ it :: post))
                   = line_sum (snapshots L db (pre ++ post))).
    { rewrite !snapshots_app. cbn [snapshots]. rewrite Hl.
      apply line_sum_skip;
        [now apply snapshots_valid | now apply snapshots_finite | exact Hline]. }
    now rewrite Hsum.
  - intros Ht. cbn. now rewrite Ht.
Qed.

End OrderClaims.

(* ===================================================================== *)
(** * Listing one's orders *)
(* ===================================================================== *)

Section MyOrdersClaims.

Context (L : Lib).

(** C8: listing one's orders is refused with 403 unless the caller is a
    buyer or an admin; otherwise the answer is made of exactly the stored
    orders whose [buyer_id] is the caller's own id, each once, newest
    first.  This holds for an admin as for a buyer: an admin sees the
    orders placed under the admin's own id and no others. *)
Theorem C8_my_orders_scope (db : database) (current : AuthedUser) :
  (~ buyer_or_admin current ->
   my_orders L current db
   = (db, Raise (HTTPException 403 "Only buyers can view their orders")))
  /\ (buyer_or_admin current ->
      exists found,
        my_orders L current db = (db, Ok (map (serialize_doc L) found))
        /\ Permutation found
             (filter (fun d => String.eqb (o_buyer_id (fields d)) (au_id current))
                (order db))
        /\ StronglySorted desc found
        /\ (forall d, In d found <->
                      In d (order db) /\ o_buyer_id (fields d) = au_id current)
        /\ Forall (fun s => o_buyer_id (s_fields s) = au_id current)
             (map (serialize_doc L) found)).
Proof.
  split; intros Hrole.
  - unfold my_orders.
    destruct (role_in current ["buyer"; "admin"]) eqn:E; [| reflexivity].
    exfalso. apply Hrole. now apply buyer_or_admin_role_in.
  - apply buyer_or_admin_role_in in Hrole.
    unfold my_orders. rewrite Hrole. cbn [negb].
    set (mine := fun d : stored OrderDoc =>
                   String.eqb (o_buyer_id (fields d)) (au_id current)).
    exists (sort_desc (filter mine (order db))).
    assert (Hin : forall d, In d (sort_desc (filter mine (order db))) <->
                            In d (order db) /\ o_buyer_id (fields d) = au_id current).
    { intros d. rewrite In_sort_desc, filter_In. unfold mine.
      now rewrite String.eqb_eq. }
    split; [reflexivity |].
    split; [apply sort_desc_perm |].
    split; [apply sort_desc_sorted |].
    split; [exact Hin |].
    apply Forall_forall. intros s Hs.
    apply in_map_iff in Hs as (d & <- & Hd). cbn. now apply Hin.
Qed.

End MyOrdersClaims.

(* ===================================================================== *)
(** * Token resolution *)
(* ===================================================================== *)

Lemma lower_char_space (c : ascii) :
  Ascii.eqb (lower_char c) " " = Ascii.eqb c " ".
Proof.
  destruct c as [[] [] [] [] [] [] [] []]; reflexivity.
Qed.

Lemma no_space_lower (s : string) : no_space (lower s) = no_space s.
Proof.
  induction s as [| c r IH]; [reflexivity |].
  cbn. now rewrite lower_char_space, IH.
Qed.

Lemma lower_app (a b : string) : lower (a ++ b) = lower a ++ lower b.
Proof.
  induction a as [| c r IH]; [reflexivity |]. cbn. now rewrite IH.
Qed.

Lemma startswith_app (p r : string) : startswith (p ++ r) p = true.
Proof.
  induction p as [| c p IH]; [reflexivity |].
  cbn. now rewrite Ascii.eqb_refl, IH.
Qed.

Lemma split_space_1_app (p r : string) :
  no_space p = true -> split_space_1 (p ++ String " " r) = (p, Some r).
Proof.
  induction p as [| c p IH]; [reflexivity |].
  cbn. intros H. apply andb_prop in H as [Hc Hp].
  destruct (Ascii.eqb c " "); [discriminate |].
  now rewrite (IH Hp).
Qed.

Lemma lstrip_all_space (pre r : string) :
  all_space pre = true -> lstrip (pre ++ r) = lstrip r.
Proof.
  induction pre as [| c pre IH]; [reflexivity |].
  cbn. intros H. apply andb_prop in H as [Hc Hpre].
  rewrite Hc. now apply IH.
Qed.

Lemma lstrip_first_nonspace (s : string) :
  first_nonspace s = true -> lstrip s = s.
Proof.
  destruct s as [| c r]; [discriminate |].
  cbn. now destruct (is_space c).
Qed.

Lemma rstrip_all_space (post : string) :
  all_space post = true -> rstrip post = "".
Proof.
  induction post as [| c post IH]; [reflexivity |].
  cbn. intros H. apply andb_prop in H as [Hc Hpost].
  now rewrite (IH Hpost), Hc.
Qed.

Lemma rstrip_last_nonspace (tok post : string) :
  last_nonspace tok = true -> all_space post = true ->
  rstrip (tok ++ post) = tok.
Proof.
  intros Hlast Hpost.
  induction tok as [| c tok IH]; [discriminate |].
  destruct tok as [| c' tok'].
  - cbn [append rstrip]. rewrite (rstrip_all_space post Hpost).
    cbn in Hlast. now destruct (is_space c).
  - change ((String c (String c' tok') ++ post))
      with (String c (String c' tok' ++ post)).
    cbn [rstrip]. rewrite (IH Hlast). reflexivity.
Qed.

(** Stripping takes the whitespace around a token away, and nothing else. *)
Lemma strip_padded (pre tok post : string) :
  all_space pre = true -> all_space post = true ->
  first_nonspace tok = true -> last_nonspace tok = true ->
  strip (pre ++ tok ++ post) = tok.
Proof.
  intros Hpre Hpost Hfirst Hlast. unfold strip.
  rewrite (lstrip_all_space pre _ Hpre).
  rewrite lstrip_first_nonspace
    by (destruct tok; [discriminate | exact Hfirst]).
  now apply rstrip_last_nonspace.
Qed.

Lemma strip_all_space (pad : string) : all_space pad = true -> strip pad = "".
Proof.
  unfold strip. induction pad as [| c pad IH]; [reflexivity |].
  cbn. intros H. apply andb_prop in H as [Hc Hp].
  rewrite Hc. now apply IH.
Qed.

Section TokenClaims.

Context (L : Lib).

(** C9: a missing header, or one that does not start with "bearer " in
    any mix of cases, is answered 401 "Unauthorized"; a header made of a
    scheme that reads "bearer" in any mix of cases, one space, and a
    remainder, is resolved by looking up the whole remainder, stripped of
    the whitespace around it: when the remainder is a token that neither
    starts nor ends with whitespace, with whitespace only before and after
    it, the token itself is looked up, whatever spaces it has inside. *)
Theorem C9_bearer_header (db : database) :
  (forall authorization,
      authorization = None
      \/ (exists h, authorization = Some h
                    /\ startswith (lower h) "bearer " = false) ->
      get_current_user L authorization db
      = (db, Raise (HTTPException 401 "Unauthorized")))
  /\ (forall scheme rest,
         lower scheme = "bearer" ->
         no_space scheme = true
         /\ get_current_user L (Some (scheme ++ " " ++ rest)) db
            = (db, resolve L db (strip rest)))
  /\ (forall x,
         get_current_user L (Some ("Bearer " ++ x)) db = (db, resolve L db (strip x))
         /\ get_current_user L (Some ("bearer " ++ x)) db = (db, resolve L db (strip x))
         /\ get_current_user L (Some ("BEARER " ++ x)) db = (db, resolve L db (strip x)))
  /\ (forall scheme pre tok post,
         lower scheme = "bearer" ->
         all_space pre = true ->
         all_space post = true ->
         first_nonspace tok = true ->
         last_nonspace tok = true ->
         get_current_user L (Some (scheme ++ " " ++ pre ++ tok ++ post)) db
         = (db, resolve L db tok))
  /\ (forall scheme pad,
         lower scheme = "bearer" ->
         all_space pad = true ->
         get_current_user L (Some (scheme ++ " " ++ pad)) db
         = (db, resolve L db "")).
Proof.
  assert (Hscheme : forall scheme rest,
             lower scheme = "bearer" ->
             no_space scheme = true
             /\ get_current_user L (Some (scheme ++ " " ++ rest)) db
                = (db, resolve L db (strip rest))).
  { intros scheme rest Hs.
    assert (Hns : no_space scheme = true)
      by (rewrite <- no_space_lower, Hs; reflexivity).
    split; [exact Hns |].
    unfold get_current_user.
    assert (Ht : truthy (Some (scheme ++ " " ++ rest)) = true).
    { destruct scheme; [discriminate | reflexivity]. }
    rewrite Ht. cbn [negb orb].
    assert (Hp : startswith (lower (scheme ++ " " ++ rest)) "bearer " = true).
    { rewrite lower_app, Hs, lower_app.
      change ("bearer" ++ lower " " ++ lower rest) with ("bearer " ++ lower rest).
      apply startswith_app. }
    rewrite Hp. cbn [negb].
    change (" " ++ rest) with (String " " rest).
    rewrite (split_space_1_app scheme rest Hns). cbn [snd].
    unfold bind, find_one, resolve. cbn [docs user_c].
    destruct (List.find _ (user db)); reflexivity. }
  split; [| split; [exact Hscheme | split; [| split]]].
  - intros authorization [-> | (h & -> & Hh)]; [reflexivity |].
    unfold get_current_user. rewrite Hh. cbn [negb].
    now rewrite orb_true_r.
  - intros x. repeat split.
    + exact (proj2 (Hscheme "Bearer" x eq_refl)).
    + exact (proj2 (Hscheme "bearer" x eq_refl)).
    + exact (proj2 (Hscheme "BEARER" x eq_refl)).
  - intros scheme pre tok post Hs Hpre Hpost Hfirst Hlast.
    rewrite (proj2 (Hscheme scheme (pre ++ tok ++ post) Hs)).
    now rewrite strip_padded.
  - intros scheme pad Hs Hpad.
    rewrite (proj2 (Hscheme scheme pad Hs)).
    now rewrite strip_all_space.
Qed.

End TokenClaims.

(* ===================================================================== *)
(** * Signup and login *)
(* ===================================================================== *)

Section AuthClaims.

Context (L : Lib).

Lemma registered_find (db : database) (e : string) :
  registered db e <-> exists u, List.find (has_email e) (user db) = Some u.
Proof.
  split.
  - intros (u & Hin & He).
    destruct (List.find (has_email e) (user db)) as [v |] eqn:Hf; [now exists v |].
    pose proof (find_none _ _ Hf u Hin) as Hn.
    unfold has_email in Hn. rewrite He, String.eqb_refl in Hn. discriminate.
  - intros (u & Hf). apply find_some in Hf as [Hin He].
    exists u. split; [exact Hin |]. now apply String.eqb_eq.
Qed.

(** Login, step by step. *)
Lemma login_eq (body : LoginBody) (db : database) :
  login L body db =
  match List.find (has_email (lb_email body)) (user db) with
  | None => (db, Raise (HTTPException 401 "Invalid credentials"))
  | Some u =>
      if negb (opt_str_eqb (u_password_hash (fields u))
                 (Some (sha256_hex L (lb_password body))))
      then (db, Raise (HTTPException 401 "Invalid credentials"))
      else
        match u_token (fields u) with
        | Some (String c t) => (db, Ok (login_response L u (String c t)))
        | _ =>
            (set_docs user_c
               (fst (update_first (same_id u) (set_token (token_of L u)) (user db))) db,
             Ok (login_response L u (token_of L u)))
        end
  end.
Proof.
  unfold login, bind, find_one, update_one, ret, raise, hash_password.
  unfold has_email, same_id, token_of, derive_token. cbn [docs user_c].
  destruct (List.find _ (user db)) as [u |]; [| reflexivity].
  destruct (negb _); [reflexivity |].
  destruct (u_token (fields u)) as [[| c t] |]; try reflexivity;
    destruct (update_first _ _ (user db)); reflexivity.
Qed.

(** After the token of the user found by email was written under the
    user's id, the same email finds a record with the same id and, but for
    the token, the same fields; writing the token again changes nothing. *)
Lemma find_after_update (e t : string) (l : list (stored UserDoc)) :
  forall u,
    List.find (has_email e) l = Some u ->
    exists u',
      List.find (has_email e) (fst (update_first (same_id u) (set_token t) l)) = Some u'
      /\ _id u' = _id u
      /\ (fields u' = fields u \/ fields u' = set_token t (fields u))
      /\ fst (update_first (same_id u) (set_token t)
                (fst (update_first (same_id u) (set_token t) l)))
         = fst (update_first (same_id u) (set_token t) l)
      /\ In u' (fst (update_first (same_id u) (set_token t) l))
      /\ exists w, In w (fst (update_first (same_id u) (set_token t) l))
                   /\ _id w = _id u /\ u_token (fields w) = Some t.
Proof.
  induction l as [| d r IH]; intros u Hf; [discriminate |].
  cbn [List.find] in Hf. cbn [update_first].
  destruct (same_id u d) eqn:Hid.
  - cbn [fst List.find update_first].
    assert (Hid' : same_id u {| _id := _id d; created_at := created_at d;
                                fields := set_token t (fields d) |} = true) by exact Hid.
    rewrite Hid'. cbn [fst fields].
    assert (Hw : exists w, In w ({| _id := _id d; created_at := created_at d;
                                   fields := set_token t (fields d) |} :: r)
                           /\ _id w = _id u /\ u_token (fields w) = Some t).
    { eexists. split; [left; reflexivity |]. split; [| reflexivity].
      cbn. unfold same_id in Hid. now apply N.eqb_eq in Hid. }
    unfold has_email at 1. cbn [fields set_token u_email].
    fold (has_email e d).
    destruct (has_email e d) eqn:He.
    + injection Hf as <-. eexists. split; [reflexivity |].
      repeat split; trivial; [now right | now left].
    + exists u. split; [exact Hf |].
      repeat split; trivial; [now left |].
      right. now apply find_some in Hf.
  - destruct (has_email e d) eqn:He.
    + injection Hf as <-. unfold same_id in Hid. now rewrite N.eqb_refl in Hid.
    + destruct (IH u Hf) as (u' & Hf' & Hi & Hfl & Hfix & Hin & w & Hw & Hwi & Hwt).
      destruct (update_first (same_id u) (set_token t) r) as [r' n] eqn:Hr.
      cbn [fst] in *. cbn [List.find update_first]. rewrite He, Hid.
      exists u'. split; [exact Hf' |].
      destruct (update_first (same_id u) (set_token t) r') as [r'' n'] eqn:Hr'.
      cbn [fst] in *. subst r''.
      repeat split; trivial; [now right |].
      exists w. split; [now right | now split].
Qed.

(** A second login, after the first one wrote the derived token. *)
Lemma login_again (db : database) (body : LoginBody) (u : stored UserDoc) :
  List.find (has_email (lb_email body)) (user db) = Some u ->
  negb (opt_str_eqb (u_password_hash (fields u))
          (Some (sha256_hex L (lb_password body)))) = false ->
  truthy (u_token (fields u)) = false ->
  let db1 := set_docs user_c
               (fst (update_first (same_id u) (set_token (token_of L u)) (user db))) db in
  login L body db1 = (db1, Ok (login_response L u (token_of L u))).
Proof.
  intros Hf Hpw Ht db1.
  destruct (find_after_update (lb_email body) (token_of L u) (user db) u Hf)
    as (u' & Hf' & Hid & Hfl & Hfix & _).
  rewrite login_eq. subst db1. cbn [user set_docs user_c].
  rewrite Hf'.
  destruct u' as [i c f]. cbn [_id fields] in Hid, Hfl. subst i.
  assert (Hsame : same_id {| _id := _id u; created_at := c; fields := f |} = same_id u)
    by reflexivity.
  assert (Hresp : forall t, login_response L {| _id := _id u; created_at := c; fields := f |} t
                            = login_response L u t).
  { intros t. destruct Hfl as [-> | ->]; reflexivity. }
  assert (Htok : token_of L {| _id := _id u; created_at := c; fields := f |} = token_of L u).
  { destruct Hfl as [-> | ->]; reflexivity. }
  assert (Hpw' : negb (opt_str_eqb (u_password_hash f)
                         (Some (sha256_hex L (lb_password body)))) = false).
  { destruct Hfl as [-> | ->]; exact Hpw. }
  cbn [fields]. rewrite Hpw', Hsame, Htok, !Hresp, Hfix.
  assert (Hcase : u_token f = u_token (fields u) \/ u_token f = Some (token_of L u)).
  { destruct Hfl as [-> | ->]; [now left | now right]. }
  destruct Hcase as [-> | ->].
  - destruct (u_token (fields u)) as [[| a t] |]; try discriminate; reflexivity.
  - destruct (token_of L u) as [| a t]; rewrite ?Hresp; reflexivity.
Qed.

(** C5: the token that signup stores and returns is the hash of
    [email:role]; a login that finds no token on the user derives the same
    hash of [email:role] (the role being "farmer" when the record has none)
    and stores it under the user's id; a login that finds a token returns
    it; and a login that succeeded, repeated on the store it left, returns
    the same answer, token included, and leaves the store as it is. *)
Theorem C5_token_idempotent (db : database) :
  (forall body now,
      ~ registered db (sb_email body) ->
      exists db' r u,
        signup L body now db = (db', Ok r)
        /\ ar_token r = sha256_hex L (sb_email body ++ ":" ++ role_str (sb_role body))
        /\ user db' = (user db ++ [u])%list
        /\ u_email (fields u) = sb_email body
        /\ u_token (fields u) = Some (ar_token r))
  /\ (forall body u,
        List.find (has_email (lb_email body)) (user db) = Some u ->
        password_ok L u (lb_password body) ->
        truthy (u_token (fields u)) = false ->
        exists db' r w,
          login L body db = (db', Ok r)
          /\ ar_token r
             = sha256_hex L (u_email (fields u) ++ ":" ++ dflt (u_role (fields u)) "farmer")
          /\ In w (user db') /\ _id w = _id u
          /\ u_token (fields w) = Some (ar_token r))
  /\ (forall body u t,
        List.find (has_email (lb_email body)) (user db) = Some u ->
        password_ok L u (lb_password body) ->
        u_token (fields u) = Some t -> t <> "" ->
        login L body db = (db, Ok (login_response L u t)))
  /\ (forall body db1 r1,
        login L body db = (db1, Ok r1) ->
        login L body db1 = (db1, Ok r1)).
Proof.
  repeat split.
  - intros body now Hnew.
    unfold signup, bind, find_one. cbn [docs user_c].
    change (fun d : stored UserDoc => String.eqb (u_email (fields d)) (sb_email body))
      with (has_email (sb_email body)).
    destruct (List.find (has_email (sb_email body)) (user db)) as [v |] eqn:Hf.
    { exfalso. apply Hnew. apply registered_find. now exists v. }
    unfold create_document, ret. cbn [docs user_c set_docs].
    do 3 eexists. split; [reflexivity |]. cbn. repeat split.
  - intros body u Hf Hpw Ht.
    rewrite login_eq, Hf.
    unfold password_ok in Hpw. rewrite Hpw. cbn [opt_str_eqb].
    rewrite String.eqb_refl. cbn [negb].
    destruct (find_after_update (lb_email body) (token_of L u) (user db) u Hf)
      as (_ & _ & _ & _ & _ & _ & w & Hw & Hwi & Hwt).
    destruct (u_token (fields u)) as [[| a t] |]; try discriminate;
      (do 2 eexists; exists w; split; [reflexivity |];
       cbn [user set_docs user_c ar_token login_response];
       repeat split; trivial).
  - intros body u t Hf Hpw Ht Hne.
    rewrite login_eq, Hf.
    unfold password_ok in Hpw. rewrite Hpw. cbn [opt_str_eqb].
    rewrite String.eqb_refl. cbn [negb]. rewrite Ht.
    destruct t; [congruence | reflexivity].
  - intros body db1 r1 H.
    rewrite login_eq in H.
    destruct (List.find (has_email (lb_email body)) (user db)) as [u |] eqn:Hf;
      [| discriminate].
    destruct (negb _) eqn:Hpw; [discriminate |].
    destruct (u_token (fields u)) as [[| a t] |] eqn:Ht.
    + injection H as <- <-. apply login_again; trivial. now rewrite Ht.
    + injection H as <- <-. rewrite login_eq, Hf, Hpw, Ht. reflexivity.
    + injection H as <- <-. apply login_again; trivial. now rewrite Ht.
Qed.

(** C3, as the code has it: a signup with an email that a stored user
    already has is answered 400 "Email already registered" (the status of a
    bad request; the code has no 409) and the store is left as it is: no
    user is added. *)
Theorem C3_duplicate_email_rejected (db : database) (body : SignUpBody) (now : Z) :
  registered db (sb_email body) ->
  signup L body now db
  = (db, Raise (HTTPException 400 "Email already registered"))
  /\ error_kind (HTTPException 400 "Email already registered") = BadRequest.
Proof.
  intros Hreg. split; [| reflexivity].
  apply registered_find in Hreg as (u & Hf).
  unfold signup, bind, find_one. cbn [docs user_c].
  change (fun d : stored UserDoc => String.eqb (u_email (fields d)) (sb_email body))
    with (has_email (sb_email body)).
  now rewrite Hf.
Qed.

End AuthClaims.

(* ===================================================================== *)
(** * Listing search *)
(* ===================================================================== *)

Section ListingClaims.

Context (L : Lib).

Lemma matches_status (filt : ListingFilter) (d : stored ListingDoc) (s : string) :
  f_status filt = Some s -> matches L filt d = true -> l_status (fields d) = Some s.
Proof.
  unfold matches. intros -> H.
  repeat (apply andb_prop in H as [H _]).
  now apply opt_str_eqb_eq.
Qed.

(** C4: whatever the filters, every listing a search returns has status
    "active". *)
Theorem C4_only_active_listings (db db' : database)
  (category region q : option string) (min_price max_price : option float)
  (limit : Z) (res : list (serialized ListingDoc)) :
  get_listings L category region q min_price max_price limit db = (db', Ok res) ->
  Forall (fun s => l_status (s_fields s) = Some "active") res.
Proof.
  unfold get_listings.
  destruct (negb (price_param_ok min_price)); [discriminate |].
  destruct (negb (price_param_ok max_price)); [discriminate |].
  destruct (negb _); [discriminate |].
  unfold bind, fetch, ret. intros [= _ <-].
  apply Forall_forall. intros s Hs.
  apply in_map_iff in Hs as (d & <- & Hd).
  apply run_query_In in Hd as [_ Hm].
  cbn [cur_filter sort_created_at_desc with_limit find] in Hm.
  cbn [serialize_doc s_fields].
  now apply (matches_status _ d "active") in Hm.
Qed.




End ListingClaims.

(* ===================================================================== *)
(** * The claims on the sample store *)
(* ===================================================================== *)



(** The examples of the specification: ten units of maize at 2.5 make an
    order of total 25.0 and status "pending"; a quantity of zero is refused. *)
Example order_maize :
  snd (create_order Sample.lib (Sample.cart [Sample.item Sample.maize_id 10])
         Sample.bola_user 200 Sample.db0)
  = Ok {| or_id := "000000000000000000000020";
          or_total := mkfloat 25 0;
          or_status := "pending" |}.
Proof. vm_compute. reflexivity. Qed.

Example order_quantity_zero :
  create_order Sample.lib (Sample.cart [Sample.item Sample.maize_id 0])
    Sample.bola_user 200 Sample.db0
  = (Sample.db0, Raise (HTTPException 400 "Quantity must be > 0")).
Proof. vm_compute. reflexivity. Qed.

(** A stored price below zero passes the loop and is refused by the
    [Order] schema; nothing is stored. *)
Example order_negative_price :
  create_order Sample.lib (Sample.cart [Sample.item Sample.odd_id 1])
    Sample.bola_user 200 Sample.db_odd
  = (Sample.db_odd, Raise (Uncaught "ValidationError")).
Proof. vm_compute. reflexivity. Qed.

(** A quantity that is not a number is not strictly positive, yet the
    check [quantity <= 0] lets it through; the active listing is
    snapshotted, the [Order] schema refuses the line, and the error is not a
    BadRequest. *)
Example order_nan_quantity :
  listing_of Sample.lib Sample.db0 SampleMore.nan_maize = Some Sample.maize
  /\ is_active Sample.maize
  /\ flt fzero (quantity SampleMore.nan_maize) = false
  /\ create_order Sample.lib (Sample.cart [SampleMore.nan_maize])
       Sample.bola_user 200 Sample.db0
     = (Sample.db0, Raise (Uncaught "ValidationError"))
  /\ ~ (exists db' e,
          create_order Sample.lib (Sample.cart [SampleMore.nan_maize])
            Sample.bola_user 200 Sample.db0 = (db', Raise e)
          /\ error_kind e = BadRequest).
Proof.
  split; [reflexivity |]. split; [reflexivity |]. split; [reflexivity |].
  split; [vm_compute; reflexivity |].
  intros (db' & e & H & Hk).
  vm_compute in H. inversion H; subst. discriminate Hk.
Qed.

(** The bounds of the schemas refuse what is not a number: a listing
    whose price is a NaN is not created. *)
Example listing_nan_price :
  listing_body_ok SampleMore.nan_body = false
  /\ create_listing Sample.lib SampleMore.nan_body Sample.amara_user 200 Sample.db0
     = (Sample.db0, Raise (Uncaught "ValidationError")).
Proof. split; vm_compute; reflexivity. Qed.

(** [round(0.125, 2) == 0.12] (a tie, to the even digit) and
    [round(2.675, 2) == 2.67] (the double nearest to 2.675 lies below it). *)
Example round2_tie :
  round2 (mkfloat 1 (-3)) = fdiv (float_of_int 12) (float_of_int 100).
Proof. vm_compute. reflexivity. Qed.

Example round2_binary :
  round2 (fdiv (float_of_int 2675) (float_of_int 1000))
  = fdiv (float_of_int 267) (float_of_int 100).
Proof. vm_compute. reflexivity. Qed.

(** The header is split at its first space and the remainder stripped. *)
Example strip_token : strip "  abc def  " = "abc def".
Proof. reflexivity. Qed.


Lemma C2_witness :
  (exists e db',
      create_order Sample.lib
        (Sample.cart [Sample.item Sample.maize_id 10; Sample.item Sample.beans_id 3])
        Sample.bola_user 200 Sample.db0 = (db', Raise e)
      /\ order db' = order Sample.db0 /\ db' = Sample.db0)
  /\ (exists e db',
         create_order Sample.lib (Sample.cart []) Sample.bola_user 200 Sample.db0
         = (db', Raise e)
         /\ order db' = order Sample.db0 /\ db' = Sample.db0).
Proof.
  split.
  - apply (proj1 (C2_order_all_or_nothing Sample.lib Sample.db0
                    (Sample.cart [Sample.item Sample.maize_id 10;
                                  Sample.item Sample.beans_id 3])
                    Sample.bola_user 200)).
    right. apply Exists_cons_tl. apply Exists_cons_hd.
    apply (fails_inactive Sample.lib Sample.db0 _ Sample.beans); [reflexivity |].
    unfold is_active. cbn. discriminate.
  - apply (proj1 (C2_order_all_or_nothing Sample.lib Sample.db0
                    (Sample.cart []) Sample.bola_user 200)).
    left. reflexivity.
Defined.

Lemma C6_witness :
  create_order Sample.lib
    (Sample.cart [Sample.item Sample.maize_id 10; Sample.item "xyz" 0;
                  Sample.item Sample.beans_id 3])
    Sample.bola_user 200 Sample.db0
  = (Sample.db0, Raise (HTTPException 400 "Invalid id format"))
  /\ create_order Sample.lib
       (Sample.cart [Sample.item Sample.maize_id 10;
                     Sample.item "0000000000000000000000ff" 0])
       Sample.bola_user 200 Sample.db0
     = (Sample.db0,
        Raise (HTTPException 404 "Listing not found: 0000000000000000000000ff"))
  /\ create_order Sample.lib
       (Sample.cart [Sample.item Sample.maize_id 10; Sample.item Sample.beans_id 0])
       Sample.bola_user 200 Sample.db0
     = (Sample.db0,
        Raise (HTTPException 400 "Listing not active: 000000000000000000000011"))
  /\ create_order Sample.lib
       (Sample.cart [Sample.item Sample.maize_id 10; Sample.item Sample.bare_id 0;
                     Sample.item "xyz" 1])
       Sample.bola_user 200 Sample.db0
     = (Sample.db0, Raise (HTTPException 400 "Quantity must be > 0"))
  /\ (create_order Sample.lib
        (Sample.cart [Sample.item Sample.maize_id 10; SampleMore.nan_maize;
                      Sample.item Sample.bare_id 3])
        Sample.bola_user 200 Sample.db0
      = (Sample.db0, Raise (Uncaught "ValidationError"))
      /\ error_kind (Uncaught "ValidationError") <> BadRequest).
Proof.
  assert (Hpre : Forall (passes Sample.lib Sample.db0) [Sample.item Sample.maize_id 10]).
  { constructor; [| constructor].
    exists Sample.maize. split; [reflexivity |]. split; reflexivity. }
  split; [| split; [| split; [| split]]].
  - apply (proj1 (C6_first_failing_check Sample.lib Sample.db0
                    (Sample.cart [Sample.item Sample.maize_id 10; Sample.item "xyz" 0;
                                  Sample.item Sample.beans_id 3])
                    Sample.bola_user 200
                    [Sample.item Sample.maize_id 10] [Sample.item Sample.beans_id 3]
                    (Sample.item "xyz" 0) (or_introl eq_refl) eq_refl Hpre)).
    reflexivity.
  - apply (proj1 (proj2 (C6_first_failing_check Sample.lib Sample.db0
                           (Sample.cart [Sample.item Sample.maize_id 10;
                                         Sample.item "0000000000000000000000ff" 0])
                           Sample.bola_user 200
                           [Sample.item Sample.maize_id 10] []
                           (Sample.item "0000000000000000000000ff" 0)
                           (or_introl eq_refl) eq_refl Hpre)) 255%N); reflexivity.
  - apply (proj1 (proj2 (proj2 (C6_first_failing_check Sample.lib Sample.db0
                                  (Sample.cart [Sample.item Sample.maize_id 10;
                                                Sample.item Sample.beans_id 0])
                                  Sample.bola_user 200
                                  [Sample.item Sample.maize_id 10] []
                                  (Sample.item Sample.beans_id 0)
                                  (or_introl eq_refl) eq_refl Hpre))) Sample.beans);
      [reflexivity |].
    unfold is_active. cbn. discriminate.
  - apply (proj1 (proj2 (proj2 (proj2 (C6_first_failing_check Sample.lib Sample.db0
                                         (Sample.cart [Sample.item Sample.maize_id 10;
                                                       Sample.item Sample.bare_id 0;
                                                       Sample.item "xyz" 1])
                                         Sample.bola_user 200
                                         [Sample.item Sample.maize_id 10]
                                         [Sample.item "xyz" 1]
                                         (Sample.item Sample.bare_id 0)
                                         (or_introl eq_refl) eq_refl Hpre)))) Sample.bare);
      reflexivity.
  - apply (proj2 (proj2 (proj2 (proj2 (C6_first_failing_check Sample.lib Sample.db0
                                         (Sample.cart [Sample.item Sample.maize_id 10;
                                                       SampleMore.nan_maize;
                                                       Sample.item Sample.bare_id 3])
                                         Sample.bola_user 200
                                         [Sample.item Sample.maize_id 10]
                                         [Sample.item Sample.bare_id 3]
                                         SampleMore.nan_maize
                                         (or_introl eq_refl) eq_refl Hpre)))) Sample.maize);
      try reflexivity.
    constructor; [| constructor].
    exists Sample.bare. split; [reflexivity |]. split; reflexivity.
Defined.

Lemma C10_witness :
  exists db' resp doc s,
    create_order Sample.lib
      (Sample.cart [Sample.item Sample.maize_id 10; Sample.item Sample.bare_id 3])
      Sample.bola_user 200 Sample.db0 = (db', Ok resp)
    /\ order db' = (order Sample.db0 ++
                      [{| _id := next_oid Sample.db0; created_at := 200%Z; fields := doc |}])%list
    /\ nth_error (o_items doc) 1 = Some s
    /\ oi_listing_id s = Sample.bare_id
    /\ oi_unit_price s = fzero
    /\ line_total s = fzero
    /\ o_total_amount doc = mkfloat 25 0
    /\ or_total resp = mkfloat 25 0
    /\ oi_title s = "Produce".
Proof.
  destruct (C10_missing_price_and_title Sample.lib Sample.db0
              (Sample.cart [Sample.item Sample.maize_id 10; Sample.item Sample.bare_id 3])
              Sample.bola_user 200
              [Sample.item Sample.maize_id 10] [] (Sample.item Sample.bare_id 3)
              Sample.bare (or_introl eq_refl) eq_refl)
    as (db' & resp & doc & s & Hrun & Hord & Hnth & Hid & _ & Hprice & Htitle).
  - constructor; [| constructor; [| constructor]].
    + exists Sample.maize. split; [reflexivity |]. split; reflexivity.
    + exists Sample.bare. split; [reflexivity |]. split; reflexivity.
  - constructor; [reflexivity | constructor; [reflexivity | constructor]].
  - reflexivity.
  - exists db', resp, doc, s.
    destruct (Hprice eq_refl) as (Hp & Hline & Htot & Hresp).
    split; [exact Hrun |]. split; [exact Hord |]. split; [exact Hnth |].
    split; [exact Hid |]. split; [exact Hp |]. split; [exact Hline |].
    split; [rewrite Htot; vm_compute; reflexivity |].
    split; [rewrite Hresp; vm_compute; reflexivity |].
    exact (Htitle eq_refl).
Defined.

(** The claim of C10 fails on the sample store: an infinite quantity of
    the listing without price is a valid item of an active listing, its
    line amounts to [0.0 * inf], which is not a number, and the call does not
    succeed: the [Order] schema refuses the total and nothing is stored. *)
Lemma C10_counterexample :
  buyer_or_admin Sample.bola_user
  /\ valid_item Sample.lib Sample.db0 SampleMore.endless_bare
  /\ listing_of Sample.lib Sample.db0 SampleMore.endless_bare = Some Sample.bare
  /\ l_unit_price (fields Sample.bare) = None
  /\ create_order Sample.lib (Sample.cart [SampleMore.endless_bare])
       Sample.bola_user 200 Sample.db0
     = (Sample.db0, Raise (Uncaught "ValidationError"))
  /\ ~ (exists db' resp,
          create_order Sample.lib (Sample.cart [SampleMore.endless_bare])
            Sample.bola_user 200 Sample.db0 = (db', Ok resp)).
Proof.
  split; [left; reflexivity |].
  split.
  { exists Sample.bare. split; [reflexivity |]. split; reflexivity. }
  split; [reflexivity |]. split; [reflexivity |].
  split; [vm_compute; reflexivity |].
  intros (db' & resp & H). vm_compute in H. discriminate H.
Qed.

(** The claim of C3 fails on the sample store: the duplicate signup is
    answered with status 400, which is not the kind Conflict. *)
Lemma C3_counterexample :
  registered Sample.db0 "a@x.com"
  /\ ~ (exists db' e,
          signup Sample.lib (Sample.signup_body "a@x.com") 300 Sample.db0
          = (db', Raise e)
          /\ error_kind e = Conflict).
Proof.
  split.
  - exists Sample.amara. split; [left; reflexivity | reflexivity].
  - intros (db' & e & H & Hk).
    vm_compute in H. inversion H; subst. discriminate Hk.
Qed.

Lemma C3_witness :
  signup Sample.lib (Sample.signup_body "a@x.com") 300 Sample.db0
  = (Sample.db0, Raise (HTTPException 400 "Email already registered"))
  /\ error_kind (HTTPException 400 "Email already registered") = BadRequest.
Proof.
  apply (C3_duplicate_email_rejected Sample.lib Sample.db0
           (Sample.signup_body "a@x.com") 300).
  exists Sample.amara. split; [left; reflexivity | reflexivity].
Defined.

Lemma C4_witness :
  get_listings Sample.lib (Some "grains") None None None (Some (mkfloat 10 0)) 50
    Sample.db0
  = (Sample.db0, Ok [serialize_doc Sample.lib Sample.maize])
  /\ Forall (fun s => l_status (s_fields s) = Some "active")
       [serialize_doc Sample.lib Sample.maize].
Proof.
  split; [reflexivity |].
  apply (C4_only_active_listings Sample.lib Sample.db0 Sample.db0
           (Some "grains") None None None (Some (mkfloat 10 0)) 50).
  reflexivity.
Defined.

Lemma C5_witness :
  (exists db' r u,
      signup Sample.lib (Sample.signup_body "c@x.com") 300 Sample.db0 = (db', Ok r)
      /\ ar_token r = sha256_hex Sample.lib ("c@x.com" ++ ":" ++ "buyer")
      /\ user db' = (user Sample.db0 ++ [u])%list
      /\ u_email (fields u) = "c@x.com"
      /\ u_token (fields u) = Some (ar_token r))
  /\ (exists db' r w,
         login Sample.lib Sample.bola_login Sample.db0 = (db', Ok r)
         /\ ar_token r = sha256_hex Sample.lib ("b@x.com" ++ ":" ++ "buyer")
         /\ In w (user db') /\ _id w = _id Sample.bola
         /\ u_token (fields w) = Some (ar_token r))
  /\ login Sample.lib Sample.amara_login Sample.db0
     = (Sample.db0,
        Ok (login_response Sample.lib Sample.amara (Sample.digest "a@x.com:farmer")))
  /\ login Sample.lib Sample.bola_login
       (fst (login Sample.lib Sample.bola_login Sample.db0))
     = (fst (login Sample.lib Sample.bola_login Sample.db0),
        Ok (login_response Sample.lib Sample.bola (Sample.digest "b@x.com:buyer"))).
Proof.
  destruct (C5_token_idempotent Sample.lib Sample.db0) as (Hs & Hl & He & Hi).
  split; [| split; [| split]].
  - apply (Hs (Sample.signup_body "c@x.com") 300%Z).
    intros (u & Hin & Hu).
    destruct Hin as [<- | [<- | []]]; discriminate Hu.
  - apply (Hl Sample.bola_login Sample.bola); reflexivity.
  - apply (He Sample.amara_login Sample.amara (Sample.digest "a@x.com:farmer"));
      [reflexivity | reflexivity | reflexivity | discriminate].
  - apply (Hi Sample.bola_login). reflexivity.
Defined.



Lemma C8_witness :
  my_orders Sample.lib Sample.amara_user Sample.db1
  = (Sample.db1, Raise (HTTPException 403 "Only buyers can view their orders"))
  /\ (exists found,
         my_orders Sample.lib Sample.ada_user Sample.db1
         = (Sample.db1, Ok (map (serialize_doc Sample.lib) found))
         /\ Permutation found
              (filter (fun d => String.eqb (o_buyer_id (fields d))
                                  (au_id Sample.ada_user))
                 (order Sample.db1))
         /\ StronglySorted desc found
         /\ (forall d, In d found <->
                       In d (order Sample.db1)
                       /\ o_buyer_id (fields d) = au_id Sample.ada_user)
         /\ Forall (fun s => o_buyer_id (s_fields s) = au_id Sample.ada_user)
              (map (serialize_doc Sample.lib) found)).
Proof.
  split.
  - apply (proj1 (C8_my_orders_scope Sample.lib Sample.db1 Sample.amara_user)).
    intros [H | H]; discriminate H.
  - apply (proj2 (C8_my_orders_scope Sample.lib Sample.db1 Sample.ada_user)).
    right. reflexivity.
Defined.

(** A header in mixed case whose token has spaces around it is resolved
    by the bare token; spaces inside a token are kept, and such a token is
    looked up, and not found, as it is. *)
Lemma C9_witness :
  get_current_user Sample.lib None Sample.db0
  = (Sample.db0, Raise (HTTPException 401 "Unauthorized"))
  /\ get_current_user Sample.lib (Some "Basic abc") Sample.db0
     = (Sample.db0, Raise (HTTPException 401 "Unauthorized"))
  /\ (no_space "BeArEr" = true
      /\ get_current_user Sample.lib
           (Some ("BeArEr" ++ " " ++ "  sha256(a@x.com:farmer) ")) Sample.db0
         = (Sample.db0,
            resolve Sample.lib Sample.db0 (strip "  sha256(a@x.com:farmer) ")))
  /\ get_current_user Sample.lib (Some "BeArEr   sha256(a@x.com:farmer)  ") Sample.db0
     = (Sample.db0,
        Ok {| au_id := "000000000000000000000001";
              au_role := "farmer";
              au_name := Some "Amara" |})
  /\ get_current_user Sample.lib (Some "bearer  sha256(a@x.com: farmer) ") Sample.db0
     = (Sample.db0, Raise (HTTPException 401 "Invalid token"))
  /\ get_current_user Sample.lib (Some "Bearer   ") Sample.db0
     = (Sample.db0, Raise (HTTPException 401 "Invalid token")).
Proof.
  destruct (C9_bearer_header Sample.lib Sample.db0) as (Hno & Hyes & _ & Hpad & Hblank).
  split; [| split; [| split; [| split; [| split]]]].
  - apply Hno. left. reflexivity.
  - apply Hno. right. exists "Basic abc". split; reflexivity.
  - apply (Hyes "BeArEr" "  sha256(a@x.com:farmer) "). reflexivity.
  - exact (Hpad "BeArEr" "  " "sha256(a@x.com:farmer)" "  "
             eq_refl eq_refl eq_refl eq_refl eq_refl).
  - exact (Hpad "bearer" " " "sha256(a@x.com: farmer)" " "
             eq_refl eq_refl eq_refl eq_refl eq_refl).
  - exact (Hblank "Bearer" "  " eq_refl eq_refl).
Defined.

(* ===================================================================== *)
(** * Creating listings *)
(* ===================================================================== *)

Lemma farmer_or_admin_role_in (current : AuthedUser) :
  farmer_or_admin current <-> role_in current ["farmer"; "admin"] = true.
Proof.
  unfold farmer_or_admin, role_in. cbn [existsb].
  split.
  - intros [-> | ->]; reflexivity.
  - intros H. apply orb_prop in H as [H | H]; [left; now apply String.eqb_eq |].
    apply orb_prop in H as [H | H]; [right; now apply String.eqb_eq | discriminate].
Qed.

Lemma not_role_in (current : AuthedUser) (roles : list string) (P : Prop) :
  (P <-> role_in current roles = true) -> ~ P -> role_in current roles = false.
Proof.
  intros H Hn. destruct (role_in current roles); [| reflexivity].
  exfalso. apply Hn. now apply H.
Qed.

Lemma find_app_last {T} (p : T -> bool) (l : list T) (d : T) :
  Forall (fun x => p x = false) l ->
  List.find p (l ++ [d]) = if p d then Some d else None.
Proof.
  induction 1 as [| x r Hx Hr IH]; [reflexivity |].
  cbn. now rewrite Hx.
Qed.

Lemma filter_app_last {T} (p : T -> bool) (l : list T) (d : T) :
  filter p (l ++ [d]) = (filter p l ++ (if p d then [d] else []))%list.
Proof.
  rewrite filter_app. cbn. now destruct (p d).
Qed.

(** A document newer than all the others sorts first. *)
Lemma sort_desc_app_newest {T} (l : list (stored T)) (d : stored T) :
  all_older (created_at d) l -> sort_desc (l ++ [d]) = d :: sort_desc l.
Proof.
  induction 1 as [| x r Hx Hr IH]; [reflexivity |].
  cbn [app sort_desc fold_right]. fold (sort_desc (r ++ [d])). fold (sort_desc r).
  rewrite IH. cbn [insert_desc].
  apply Z.ltb_lt in Hx. now rewrite Hx.
Qed.

Lemma all_older_filter {T} (now : Z) (p : stored T -> bool) (l : list (stored T)) :
  all_older now l -> all_older now (filter p l).
Proof.
  unfold all_older. rewrite !Forall_forall. intros H d Hd.
  apply filter_In in Hd as [Hd _]. now apply H.
Qed.

Section ListingCreation.

Context (L : Lib).

(** [create_listing], step by step. *)
Lemma create_listing_eq (db : database) (body : CreateListingBody)
  (current : AuthedUser) (now : Z) :
  create_listing L body current now db =
  if negb (role_in current ["farmer"; "admin"])
  then (db, Raise (HTTPException 403 "Only farmers can create listings"))
  else if listing_body_ok body
       then (added listing_c (new_listing body current) now db,
             Ok (oid_str L (next_oid db)))
       else (db, Raise (Uncaught "ValidationError")).
Proof.
  unfold create_listing, listing_body_ok.
  destruct (negb _); [reflexivity |].
  unfold bind, lift, ListingSchema.
  destruct (Listing_valid _ _ _ _ _ _); reflexivity.
Qed.

Lemma listing_body_ok_at_least (body : CreateListingBody) :
  listing_body_ok body = true ->
  at_least_zero (cl_quantity_available body)
  /\ at_least_zero (cl_unit_price body).
Proof.
  unfold listing_body_ok, Listing_valid. intros H.
  repeat (apply andb_prop in H as [H ?]).
  split; assumption.
Qed.

Lemma listing_body_ok_bounds (body : CreateListingBody) :
  listing_body_ok body = true ->
  flt (cl_quantity_available body) fzero = false
  /\ flt (cl_unit_price body) fzero = false.
Proof.
  intros H. apply listing_body_ok_at_least in H as [Hq Hp].
  split; now apply at_least_zero_not_below.
Qed.

(** X1: a caller who is neither farmer nor admin is refused with 403
    before the body is looked at; a farmer or admin whose body breaks the
    schema, in particular by a unit price or an available quantity below
    zero, gets a validation error.  In each case nothing is stored. *)
Theorem X1_create_listing_refused (db : database) (body : CreateListingBody)
  (current : AuthedUser) (now : Z) :
  (~ farmer_or_admin current ->
   create_listing L body current now db
   = (db, Raise (HTTPException 403 "Only farmers can create listings")))
  /\ (farmer_or_admin current ->
      listing_body_ok body = false ->
      create_listing L body current now db = (db, Raise (Uncaught "ValidationError")))
  /\ (farmer_or_admin current ->
      flt (cl_unit_price body) fzero = true
      \/ flt (cl_quantity_available body) fzero = true ->
      create_listing L body current now db = (db, Raise (Uncaught "ValidationError"))).
Proof.
  assert (Hbad : farmer_or_admin current -> listing_body_ok body = false ->
                 create_listing L body current now db
                 = (db, Raise (Uncaught "ValidationError"))).
  { intros Hrole Hok. apply farmer_or_admin_role_in in Hrole.
    now rewrite create_listing_eq, Hrole, Hok. }
  split; [| split; [exact Hbad |]].
  - intros Hrole. rewrite create_listing_eq.
    now rewrite (not_role_in _ _ _ (farmer_or_admin_role_in current) Hrole).
  - intros Hrole Hneg. apply Hbad; [exact Hrole |].
    destruct (listing_body_ok body) eqn:Hok; [| reflexivity].
    apply listing_body_ok_bounds in Hok as [Hq Hp].
    destruct Hneg; congruence.
Qed.

(** X2: a farmer or admin with a valid body gets the string of a fresh
    identifier, and one listing is appended: its status is "active", its
    [farmer_id] is the caller's own id, its title, price and quantity are
    those of the body, both numbers [>= 0], a missing or empty category
    becomes "other" and a missing or empty unit "kg".  Users and orders are
    untouched. *)
Theorem X2_create_listing_stores (db : database) (body : CreateListingBody)
  (current : AuthedUser) (now : Z) :
  farmer_or_admin current ->
  listing_body_ok body = true ->
  exists db' doc,
    create_listing L body current now db = (db', Ok (oid_str L (next_oid db)))
    /\ listing db'
       = (listing db ++ [{| _id := next_oid db; created_at := now; fields := doc |}])%list
    /\ l_status doc = Some "active"
    /\ l_farmer_id doc = au_id current
    /\ l_title doc = Some (cl_title body)
    /\ l_unit_price doc = Some (cl_unit_price body)
    /\ l_quantity_available doc = cl_quantity_available body
    /\ (truthy (cl_category body) = false -> l_category doc = Some "other")
    /\ (truthy (cl_unit body) = false -> l_unit doc = Some "kg")
    /\ user db' = user db
    /\ order db' = order db
    /\ at_least_zero (l_quantity_available doc)
    /\ (exists p, l_unit_price doc = Some p /\ at_least_zero p).
Proof.
  intros Hrole Hok. apply farmer_or_admin_role_in in Hrole.
  pose proof (listing_body_ok_at_least body Hok) as [Hq Hp].
  exists (added listing_c (new_listing body current) now db), (new_listing body current).
  rewrite create_listing_eq, Hrole, Hok. cbn [negb].
  split; [reflexivity |]. split; [reflexivity |].
  do 5 (split; [reflexivity |]).
  split; [| split; [| split; [reflexivity | split; [reflexivity | split]]]].
  - intros Hc. cbn. destruct (cl_category body) as [[| c r] |]; try discriminate; reflexivity.
  - intros Hu. cbn. destruct (cl_unit body) as [[| c r] |]; try discriminate; reflexivity.
  - exact Hq.
  - exists (cl_unit_price body). split; [reflexivity | exact Hp].
Qed.

(** X3: a listing just created, newer than every stored listing, is the
    first result of a search without filters, under the identifier that
    the creation returned; the price and the quantity it shows are numbers
    [>= 0]. *)
Theorem X3_created_listing_is_found (db : database) (body : CreateListingBody)
  (current : AuthedUser) (now : Z) (limit : Z) :
  farmer_or_admin current ->
  listing_body_ok body = true ->
  all_older now (listing db) ->
  (1 <= limit <= 200)%Z ->
  exists db' rest,
    create_listing L body current now db = (db', Ok (oid_str L (next_oid db)))
    /\ get_listings L None None None None None limit db'
       = (db', Ok ({| s_id := oid_str L (next_oid db);
                      s_created_at := now;
                      s_fields := new_listing body current |} :: rest))
    /\ at_least_zero (l_quantity_available (new_listing body current))
    /\ (exists p, l_unit_price (new_listing body current) = Some p
                  /\ at_least_zero p).
Proof.
  intros Hrole Hok Hold Hlim. apply farmer_or_admin_role_in in Hrole.
  pose proof (listing_body_ok_at_least body Hok) as [Hq Hp].
  set (new := {| _id := next_oid db; created_at := now;
                 fields := new_listing body current |}).
  set (filt := listing_filter None None None None None).
  exists (added listing_c (new_listing body current) now db),
         (map (serialize_doc L)
            (firstn (Nat.pred (Z.to_nat limit))
               (sort_desc (filter (matches L filt) (listing db))))).
  rewrite create_listing_eq, Hrole, Hok. cbn [negb].
  split; [reflexivity |].
  unfold get_listings. cbn [price_param_ok negb].
  assert (Hl : ((1 <=? limit) && (limit <=? 200))%Z = true).
  { apply andb_true_iff. split; apply Z.leb_le; lia. }
  rewrite Hl. cbn [negb].
  unfold bind, fetch, ret, run_query.
  cbn [cur_filter cur_coll cur_sort cur_limit sort_created_at_desc with_limit find
       docs listing_c added bump set_docs listing].
  fold new. fold filt.
  rewrite filter_app_last.
  assert (Hm : matches L filt new = true) by reflexivity.
  rewrite Hm.
  rewrite (sort_desc_app_newest _ new) by (apply all_older_filter; exact Hold).
  split.
  - destruct (Z.to_nat limit) as [| k] eqn:Hk; [lia |].
    reflexivity.
  - split; [exact Hq |].
    exists (cl_unit_price body). split; [reflexivity | exact Hp].
Qed.

(** X4: an order placed on a listing just created, by the identifier
    string that the creation returned and for a finite quantity above zero,
    goes through: its total is the unit price of the listing times the
    ordered quantity, added to [0.0] and rounded to the nearest number of
    hundredths, a number not below zero, and its status is "pending".  The
    identifier must print and parse back, and be carried by no listing
    stored before. *)
Theorem X4_order_on_created_listing (db : database) (body : CreateListingBody)
  (seller customer : AuthedUser) (now now' : Z) (q : float)
  (terms method : option string) :
  farmer_or_admin seller ->
  listing_body_ok body = true ->
  buyer_or_admin customer ->
  id_unused (next_oid db) (listing db) ->
  ObjectId L (oid_str L (next_oid db)) = Some (next_oid db) ->
  flt fzero q = true ->
  is_finite q = true ->
  exists db1 db2 total,
    create_listing L body seller now db = (db1, Ok (oid_str L (next_oid db)))
    /\ create_order L
         {| items := [{| listing_id := oid_str L (next_oid db); quantity := q |}];
            delivery_terms := terms; payment_method := method |}
         customer now' db1
       = (db2, Ok {| or_id := oid_str L (N.succ (next_oid db));
                     or_total := total;
                     or_status := "pending" |})
    /\ total = round2 (fadd fzero (fmul (cl_unit_price body) q))
    /\ rounds_to_cents (fadd fzero (fmul (cl_unit_price body) q)) total
    /\ at_least_zero total.
Proof.
  intros Hseller Hok Hbuyer Hfresh Hrt Hq Hfin.
  apply farmer_or_admin_role_in in Hseller.
  set (new := {| _id := next_oid db; created_at := now;
                 fields := new_listing body seller |}).
  set (db1 := added listing_c (new_listing body seller) now db).
  set (it := {| listing_id := oid_str L (next_oid db); quantity := q |}).
  set (cart := {| items := [it]; delivery_terms := terms; payment_method := method |}).
  assert (Hl : listing_of L db1 it = Some new).
  { unfold listing_of. cbn [listing_id it]. rewrite Hrt.
    unfold db1, added. cbn [listing bump set_docs listing_c docs].
    rewrite find_app_last.
    - cbn [_id new]. now rewrite N.eqb_refl.
    - eapply Forall_impl; [| exact Hfresh]. intros d Hd. now apply N.eqb_neq. }
  assert (Hv : valid_item L db1 it).
  { exists new. split; [exact Hl |]. split; [reflexivity |].
    unfold OrderItem_valid. cbn. rewrite Hq.
    exact (proj2 (listing_body_ok_at_least body Hok)). }
  assert (Hf : finite_quantities [it]) by (constructor; [exact Hfin | constructor]).
  pose proof (total_accepted L db1 [it] (Forall_cons _ Hv (Forall_nil _)) Hf) as Htot.
  cbn [snapshots] in Htot. rewrite Hl in Htot.
  exists db1. do 2 eexists.
  rewrite create_listing_eq, Hseller, Hok. cbn [negb].
  split; [reflexivity |].
  rewrite (create_order_valid L db1 cart customer now' Hbuyer);
    [| discriminate | constructor; [exact Hv | constructor] | exact Hf].
  cbn [items cart snapshots]. rewrite Hl.
  split; [reflexivity |].
  split; [reflexivity |].
  split; [apply round2_rounds_to_cents | exact Htot].
Qed.

End ListingCreation.

(* ===================================================================== *)
(** * Moderating the status of a listing *)
(* ===================================================================== *)

Lemma officer_or_admin_role_in (current : AuthedUser) :
  officer_or_admin current <-> role_in current ["officer"; "admin"] = true.
Proof.
  unfold officer_or_admin, role_in. cbn [existsb].
  split.
  - intros [-> | ->]; reflexivity.
  - intros H. apply orb_prop in H as [H | H]; [left; now apply String.eqb_eq |].
    apply orb_prop in H as [H | H]; [right; now apply String.eqb_eq | discriminate].
Qed.

(** Either no document is accepted and nothing changes, or the first
    accepted document, and it alone, is replaced by its update. *)
Lemma update_first_cases {T} (p : stored T -> bool) (f : T -> T) (l : list (stored T)) :
  (Forall (fun x => p x = false) l /\ update_first p f l = (l, 0))
  \/ (exists pre d post,
         l = (pre ++ d :: post)%list
         /\ Forall (fun x => p x = false) pre
         /\ p d = true
         /\ update_first p f l
            = ((pre ++ {| _id := _id d; created_at := created_at d;
                          fields := f (fields d) |} :: post)%list, 1)).
Proof.
  induction l as [| x r IH].
  - left. split; [constructor | reflexivity].
  - cbn [update_first]. destruct (p x) eqn:Hx.
    + right. exists [], x, r. repeat split; trivial.
    + destruct IH as [[Hall Hr] | (pre & d & post & -> & Hpre & Hd & Hr)]; rewrite Hr.
      * left. split; [now constructor | reflexivity].
      * right. exists (x :: pre), d, post. repeat split; trivial. now constructor.
Qed.

Lemma find_split {T} (p : T -> bool) (pre post : list T) (d : T) :
  Forall (fun x => p x = false) pre -> p d = true ->
  List.find p (pre ++ d :: post) = Some d.
Proof.
  induction 1 as [| x r Hx Hr IH]; intros Hd; cbn.
  - now rewrite Hd.
  - rewrite Hx. now apply IH.
Qed.

Lemma find_none_Forall {T} (p : T -> bool) (l : list T) :
  List.find p l = None <-> Forall (fun x => p x = false) l.
Proof.
  split.
  - intros H. apply Forall_forall. intros x Hx. exact (find_none _ _ H x Hx).
  - induction 1 as [| x r Hx Hr IH]; [reflexivity |]. cbn. now rewrite Hx.
Qed.

Lemma set_docs_listing_same (db : database) :
  set_docs listing_c (listing db) db = db.
Proof. now destruct db. Qed.

Lemma id_unused_eqb {T} (o : OID) (l : list (stored T)) :
  id_unused o l <-> Forall (fun d => N.eqb (_id d) o = false) l.
Proof.
  unfold id_unused. split; apply Forall_impl; intros d H; now apply N.eqb_neq.
Qed.

Section StatusFacts.

Context (L : Lib).

(** [update_listing_status], step by step. *)
Lemma update_listing_status_eq (db : database) (lid : string)
  (body : VerifyListingBody) (current : AuthedUser) :
  update_listing_status L lid body current db =
  if negb (role_in current ["officer"; "admin"])
  then (db, Raise (HTTPException 403 "Only officers/admin can update status"))
  else
    match ObjectId L lid with
    | None => (db, Raise (HTTPException 400 "Invalid id format"))
    | Some o =>
        let r := update_first (fun d => N.eqb (_id d) o)
                   (set_status (status_str (vb_status body))) (listing db) in
        (set_docs listing_c (fst r) db,
         if Nat.eqb (snd r) 0
         then Raise (HTTPException 404 "Listing not found")
         else Ok {| sr_id := lid; sr_status := status_str (vb_status body) |})
    end.
Proof.
  unfold update_listing_status.
  destruct (negb _); [reflexivity |].
  unfold bind at 1. unfold oid.
  destruct (ObjectId L lid) as [o |]; [| reflexivity].
  unfold ret at 1. unfold bind, update_one. cbn [docs listing_c].
  destruct (update_first _ _ (listing db)) as [l n]. cbn [fst snd].
  destruct (Nat.eqb n 0); reflexivity.
Qed.

(** An order that reaches a listing which is not active is refused. *)
Lemma create_order_not_active (db : database) (body : CreateOrderBody)
  (current : AuthedUser) (now : Z) (pre post : list OrderItemIn) (it : OrderItemIn)
  (l : stored ListingDoc) :
  buyer_or_admin current ->
  items body = (pre ++ it :: post)%list ->
  Forall (passes L db) pre ->
  listing_of L db it = Some l ->
  l_status (fields l) <> Some "active" ->
  create_order L body current now db
  = (db, Raise (HTTPException 400 ("Listing not active: " ++ listing_id it))).
Proof.
  intros Hrole Hitems Hpre Hl Hna.
  apply create_order_raise; trivial; [rewrite Hitems; now destruct pre |].
  rewrite Hitems, (order_loop_app L db pre _ Hpre).
  unfold listing_of in Hl.
  cbn [order_loop]. unfold bind at 1. unfold oid.
  destruct (ObjectId L (listing_id it)) as [o |]; [| discriminate].
  unfold ret at 1. unfold bind at 1. unfold find_one. cbn [docs listing_c].
  rewrite Hl.
  destruct (opt_str_eqb (l_status (fields l)) (Some "active")) eqn:Hs; [| reflexivity].
  exfalso. apply Hna. now apply opt_str_eqb_eq.
Qed.

(** X5: a status update is refused with 403 to a caller who is neither
    officer nor admin, then with 400 for a malformed identifier, then with
    404 when no listing carries the identifier; in each case the store is
    left as it was. *)
Theorem X5_update_status_refused (db : database) (lid : string)
  (body : VerifyListingBody) (current : AuthedUser) :
  (~ officer_or_admin current ->
   update_listing_status L lid body current db
   = (db, Raise (HTTPException 403 "Only officers/admin can update status")))
  /\ (officer_or_admin current ->
      ObjectId L lid = None ->
      update_listing_status L lid body current db
      = (db, Raise (HTTPException 400 "Invalid id format")))
  /\ (officer_or_admin current ->
      forall o,
        ObjectId L lid = Some o ->
        id_unused o (listing db) ->
        update_listing_status L lid body current db
        = (db, Raise (HTTPException 404 "Listing not found"))).
Proof.
  split; [| split].
  - intros Hrole. rewrite update_listing_status_eq.
    now rewrite (not_role_in _ _ _ (officer_or_admin_role_in current) Hrole).
  - intros Hrole Ho. apply officer_or_admin_role_in in Hrole.
    now rewrite update_listing_status_eq, Hrole, Ho.
  - intros Hrole o Ho Hun. apply officer_or_admin_role_in in Hrole.
    rewrite update_listing_status_eq, Hrole, Ho. cbn [negb].
    apply id_unused_eqb in Hun.
    destruct (update_first_cases (fun d => N.eqb (_id d) o)
                (set_status (status_str (vb_status body))) (listing db))
      as [[_ Hr] | (pre & d & post & Hl & Hpre & Hd & _)].
    + rewrite Hr. cbn [fst snd Nat.eqb]. now rewrite set_docs_listing_same.
    + exfalso. rewrite Hl in Hun. apply Forall_app in Hun as [_ Hun].
      inversion Hun; subst. congruence.
Qed.

(** X6: when the first listing under the identifier is [d], an officer or
    admin's update answers the identifier and the status, and replaces [d]
    by [d] with the new status: the listings before and after [d], the
    other fields of [d], the users, the orders and the identifier source
    are as before.  The same update again changes nothing more. *)
Theorem X6_update_status_effect (db : database) (lid : string)
  (body : VerifyListingBody) (current : AuthedUser) (o : OID) (d : stored ListingDoc) :
  officer_or_admin current ->
  ObjectId L lid = Some o ->
  List.find (fun x => N.eqb (_id x) o) (listing db) = Some d ->
  exists db' pre post,
    update_listing_status L lid body current db
    = (db', Ok {| sr_id := lid; sr_status := status_str (vb_status body) |})
    /\ listing db = (pre ++ d :: post)%list
    /\ id_unused o pre
    /\ listing db'
       = (pre ++ {| _id := _id d; created_at := created_at d;
                    fields := set_status (status_str (vb_status body)) (fields d) |}
              :: post)%list
    /\ user db' = user db
    /\ order db' = order db
    /\ next_oid db' = next_oid db
    /\ update_listing_status L lid body current db'
       = (db', Ok {| sr_id := lid; sr_status := status_str (vb_status body) |}).
Proof.
  intros Hrole Ho Hf. apply officer_or_admin_role_in in Hrole.
  set (p := fun x : stored ListingDoc => N.eqb (_id x) o).
  set (s := status_str (vb_status body)).
  destruct (update_first_cases p (set_status s) (listing db))
    as [[Hall _] | (pre & d0 & post & Hl & Hpre & Hd & Hr)].
  { apply find_none_Forall in Hall. fold p in Hf. congruence. }
  assert (d0 = d) as ->.
  { fold p in Hf. rewrite Hl, (find_split p pre post d0 Hpre Hd) in Hf. congruence. }
  set (d' := {| _id := _id d; created_at := created_at d;
                fields := set_status s (fields d) |}).
  exists (set_docs listing_c (pre ++ d' :: post)%list db), pre, post.
  assert (Hagain : update_first p (set_status s) (pre ++ d' :: post)
                   = ((pre ++ d' :: post)%list, 1)).
  { destruct (update_first_cases p (set_status s) (pre ++ d' :: post))
      as [[Hall _] | (pre1 & d1 & post1 & Hl1 & Hpre1 & Hd1 & Hr1)].
    - apply Forall_app in Hall as [_ Hall]. inversion Hall; subst.
      unfold p, d' in *. cbn [_id] in *. congruence.
    - assert (Hfd : List.find p (pre ++ d' :: post) = Some d')
        by (apply find_split; [exact Hpre | exact Hd]).
      rewrite Hr1. f_equal.
      rewrite Hl1 in Hfd. rewrite (find_split p pre1 post1 d1 Hpre1 Hd1) in Hfd.
      injection Hfd as ->. exact (eq_sym Hl1). }
  rewrite !update_listing_status_eq, Hrole, Ho. cbn [negb].
  fold p. fold s. cbn [listing set_docs listing_c].
  rewrite Hr, Hagain. cbn [fst snd Nat.eqb].
  split; [reflexivity |]. split; [exact Hl |].
  split; [now apply id_unused_eqb |].
  repeat split.
Qed.

End StatusFacts.

Section StatusComposition.

Context (L : Lib).

(** What a successful status update leaves: the first listing under the
    identifier carries the new status. *)
Lemma update_listing_status_ok (db db' : database) (lid : string)
  (body : VerifyListingBody) (current : AuthedUser) (r : StatusResponse) :
  update_listing_status L lid body current db = (db', Ok r) ->
  exists o pre d post,
    ObjectId L lid = Some o
    /\ listing db = (pre ++ d :: post)%list
    /\ id_unused o pre
    /\ _id d = o
    /\ listing db'
       = (pre ++ {| _id := _id d; created_at := created_at d;
                    fields := set_status (status_str (vb_status body)) (fields d) |}
              :: post)%list.
Proof.
  rewrite update_listing_status_eq.
  destruct (negb _); [discriminate |].
  destruct (ObjectId L lid) as [o |]; [| discriminate].
  destruct (update_first_cases (fun x : stored ListingDoc => N.eqb (_id x) o)
              (set_status (status_str (vb_status body))) (listing db))
    as [[_ Hr] | (pre & d & post & Hl & Hpre & Hd & Hr)];
    rewrite Hr; cbn [fst snd Nat.eqb]; [discriminate |].
  intros [= <- _].
  exists o, pre, d, post. repeat split; trivial.
  - now apply id_unused_eqb.
  - now apply N.eqb_eq.
Qed.

Lemma status_str_not_active (s : Status) :
  s <> Active -> Some (status_str s) <> Some "active".
Proof. destruct s; [congruence | discriminate | discriminate]. Qed.

(** X7: once an officer or admin has set a listing to "inactive" or
    "sold", an order that reaches this listing, under any spelling of its
    identifier, is refused with 400 "Listing not active: <id>" and stores
    nothing. *)
Theorem X7_no_order_on_withdrawn_listing (db db' : database) (lid : string)
  (body : VerifyListingBody) (moderator : AuthedUser) (r : StatusResponse)
  (cart : CreateOrderBody) (customer : AuthedUser) (now : Z)
  (pre post : list OrderItemIn) (it : OrderItemIn) :
  vb_status body <> Active ->
  update_listing_status L lid body moderator db = (db', Ok r) ->
  buyer_or_admin customer ->
  items cart = (pre ++ it :: post)%list ->
  Forall (passes L db') pre ->
  ObjectId L (listing_id it) = ObjectId L lid ->
  create_order L cart customer now db'
  = (db', Raise (HTTPException 400 ("Listing not active: " ++ listing_id it))).
Proof.
  intros Hs Hup Hrole Hitems Hpre Hsame.
  destruct (update_listing_status_ok db db' lid body moderator r Hup)
    as (o & lpre & d & lpost & Ho & _ & Hun & Hd & Hl').
  eapply create_order_not_active; try eassumption.
  - unfold listing_of. rewrite Hsame, Ho, Hl'.
    apply find_split.
    + now apply id_unused_eqb.
    + cbn [_id]. now apply N.eqb_eq.
  - cbn [fields set_status l_status]. now apply status_str_not_active.
Qed.

(** X8: once an officer or admin has set a listing to "inactive" or
    "sold", no search returns a listing whose identifier denotes the same
    object, whatever the filters; the stored identifiers are distinct, and
    print and parse back. *)
Theorem X8_withdrawn_listing_not_listed (db db' db'' : database) (lid : string)
  (body : VerifyListingBody) (moderator : AuthedUser) (r : StatusResponse)
  (category region q : option string) (min_price max_price : option float)
  (limit : Z) (res : list (serialized ListingDoc)) :
  vb_status body <> Active ->
  NoDup (map _id (listing db)) ->
  Forall (fun d => ObjectId L (oid_str L (_id d)) = Some (_id d)) (listing db) ->
  update_listing_status L lid body moderator db = (db', Ok r) ->
  get_listings L category region q min_price max_price limit db' = (db'', Ok res) ->
  Forall (fun s => ObjectId L (s_id s) <> ObjectId L lid) res.
Proof.
  intros Hs Hnd Hrt Hup Hget.
  destruct (update_listing_status_ok db db' lid body moderator r Hup)
    as (o & pre & d & post & Ho & Hl & Hun & Hd & Hl').
  revert Hget. unfold get_listings.
  destruct (negb (price_param_ok min_price)); [discriminate |].
  destruct (negb (price_param_ok max_price)); [discriminate |].
  destruct (negb _); [discriminate |].
  unfold bind, fetch, ret. intros [= _ <-].
  apply Forall_forall. intros s Hin.
  apply in_map_iff in Hin as (x & <- & Hx).
  apply run_query_In in Hx as [Hx Hm].
  cbn [cur_coll cur_filter sort_created_at_desc with_limit find docs listing_c] in Hx, Hm.
  apply (matches_status L (listing_filter category region q min_price max_price)
           x "active" eq_refl) in Hm.
  cbn [serialize_doc s_id]. rewrite Ho.
  rewrite Hl in Hrt, Hnd.
  apply Forall_app in Hrt as [Hrt_pre Hrt_post].
  inversion Hrt_post as [| ? ? Hrt_d Hrt_post']; subst.
  rewrite Hl' in Hx. apply in_app_or in Hx as [Hx | [Hx | Hx]].
  - rewrite Forall_forall in Hrt_pre. rewrite (Hrt_pre x Hx).
    intros [= Hxo]. unfold id_unused in Hun. rewrite Forall_forall in Hun.
    exact (Hun x Hx Hxo).
  - subst x. cbn [fields set_status l_status] in Hm.
    exfalso. exact (status_str_not_active _ Hs Hm).
  - rewrite Forall_forall in Hrt_post'. rewrite (Hrt_post' x Hx).
    intros [= Hxo].
    rewrite map_app in Hnd. cbn [map] in Hnd.
    apply NoDup_remove_2 in Hnd. apply Hnd.
    apply in_or_app. right. rewrite <- Hxo. now apply in_map.
Qed.

End StatusComposition.

(* ===================================================================== *)
(** * What a placed order is, and what placing it leaves alone *)
(* ===================================================================== *)

Section OrderInversion.

Context (L : Lib).

(** A call that raises has written nothing. *)
Lemma create_order_raise_inv (db db' : database) (body : CreateOrderBody)
  (current : AuthedUser) (now : Z) (e : exn) :
  create_order L body current now db = (db', Raise e) -> db' = db.
Proof.
  unfold create_order.
  destruct (negb (role_in current ["buyer"; "admin"])); [now intros [= <- _] |].
  destruct (items body) as [| i r] eqn:E; [now intros [= <- _] |].
  unfold bind at 1.
  pose proof (order_loop_state L (i :: r) [] fzero db) as Hst.
  destruct (order_loop L (i :: r) [] fzero db) as [db1 [[snaps total] | e1]];
    cbn [fst] in Hst; subst db1; [| now intros [= <- _]].
  unfold bind at 1. unfold lift.
  destruct (OrderSchema _ _ _ _ _ _) as [doc | e2]; [discriminate | now intros [= <- _]].
Qed.

(** X9: whenever placing an order returns, the caller is a buyer or an
    admin, every item has passed the checks, and exactly one order has been
    appended: under the returned identifier, in the caller's name, with one
    line per requested item (so at least one), every line with a quantity
    not [<= 0] and a unit price not below zero, a total not below zero equal
    to the returned one, and status "pending". *)
Theorem X9_stored_order_is_sound (db db' : database) (body : CreateOrderBody)
  (current : AuthedUser) (now : Z) (r : OrderResponse) :
  create_order L body current now db = (db', Ok r) ->
  exists doc,
    order db'
    = (order db ++ [{| _id := next_oid db; created_at := now; fields := doc |}])%list
    /\ or_id r = oid_str L (next_oid db)
    /\ buyer_or_admin current
    /\ Forall (passes L db) (items body)
    /\ o_buyer_id doc = au_id current
    /\ o_items doc <> []
    /\ List.length (o_items doc) = List.length (items body)
    /\ Forall (fun i => fle (oi_quantity i) fzero = false
                        /\ flt (oi_unit_price i) fzero = false) (o_items doc)
    /\ flt (o_total_amount doc) fzero = false
    /\ o_total_amount doc = or_total r
    /\ o_status doc = "pending".
Proof.
  intros H.
  apply create_order_ok_inv in H as (Hrole & Hne & Hpass & Hv & Ht & -> & ->).
  eexists. split; [reflexivity |].
  cbn [or_id or_total o_buyer_id o_items o_total_amount o_status].
  pose proof (snapshots_length_passes L db _ Hpass) as Hlen.
  apply at_least_zero_not_below in Ht.
  repeat split; trivial.
  - intros Hnil. rewrite Hnil in Hlen. destruct (items body); [congruence | discriminate].
  - rewrite forallb_forall in Hv. apply Forall_forall. intros i Hi.
    specialize (Hv i Hi). unfold OrderItem_valid in Hv.
    apply andb_prop in Hv as [Hq Hp].
    split; [now apply above_zero_not_le | now apply at_least_zero_not_below].
Qed.

(** X10: no call to place an order, whether it returns or raises, changes
    a user or a listing: in particular the available quantity of the
    ordered listings stays what it was.  The orders are as before or have
    one more at the end. *)
Theorem X10_order_leaves_listings (db : database) (body : CreateOrderBody)
  (current : AuthedUser) (now : Z) :
  let db' := fst (create_order L body current now db) in
  user db' = user db
  /\ listing db' = listing db
  /\ (order db' = order db \/ exists d, order db' = (order db ++ [d])%list).
Proof.
  destruct (create_order L body current now db) as [db' [r | e]] eqn:H; cbn [fst].
  - apply create_order_ok_inv in H as (_ & _ & _ & _ & _ & -> & _).
    split; [reflexivity |]. split; [reflexivity |]. right. eexists. reflexivity.
  - apply create_order_raise_inv in H as ->. repeat split. now left.
Qed.

(** X11: after an order was placed, the buyer's own list of orders shows
    it, under the returned identifier and with the returned total; the list
    of any caller with another id answers what it answered before. *)
Theorem X11_placed_order_is_listed (db db' : database) (body : CreateOrderBody)
  (current : AuthedUser) (now : Z) (r : OrderResponse) :
  create_order L body current now db = (db', Ok r) ->
  (exists res s,
      my_orders L current db' = (db', Ok res)
      /\ In s res
      /\ s_id s = or_id r
      /\ s_created_at s = now
      /\ o_buyer_id (s_fields s) = au_id current
      /\ o_total_amount (s_fields s) = or_total r
      /\ o_status (s_fields s) = "pending")
  /\ (forall other,
         au_id other <> au_id current ->
         snd (my_orders L other db') = snd (my_orders L other db)).
Proof.
  intros H.
  apply create_order_ok_inv in H as (Hrole & _ & _ & _ & _ & -> & ->).
  split.
  - apply buyer_or_admin_role_in in Hrole.
    unfold my_orders. rewrite Hrole. cbn [negb].
    do 2 eexists. split; [reflexivity |].
    split.
    + apply in_map. unfold run_query.
      cbn [cur_limit cur_sort cur_filter cur_coll sort_created_at_desc find].
      apply In_sort_desc. apply filter_In. split.
      * cbn [docs order_c added bump set_docs order].
        apply in_or_app. right. left. reflexivity.
      * cbn. apply String.eqb_refl.
    + cbn. repeat split.
  - intros other Hother. unfold my_orders.
    destruct (negb (role_in other ["buyer"; "admin"])); [reflexivity |].
    unfold bind, fetch, ret, run_query.
    cbn [snd cur_limit cur_sort cur_filter cur_coll sort_created_at_desc find
         docs order_c added bump set_docs order].
    rewrite filter_app_last. cbn [fields o_buyer_id].
    assert (Hne : String.eqb (au_id current) (au_id other) = false).
    { apply String.eqb_neq. congruence. }
    rewrite Hne. now rewrite app_nil_r.
Qed.

End OrderInversion.

(* ===================================================================== *)
(** * Accounts: refusals, round trips and what login leaves alone *)
(* ===================================================================== *)

Lemma map_update_first {T U} (g : stored T -> U) (p : stored T -> bool) (f : T -> T)
  (l : list (stored T)) :
  (forall d, g {| _id := _id d; created_at := created_at d; fields := f (fields d) |} = g d) ->
  map g (fst (update_first p f l)) = map g l.
Proof.
  intros Hg. induction l as [| x r IH]; [reflexivity |].
  cbn [update_first]. destruct (p x).
  - cbn. now rewrite Hg.
  - destruct (update_first p f r) as [r' n]. cbn in *. now rewrite IH.
Qed.

Section AccountFacts.

Context (L : Lib).

(** [signup] of a new email, step by step. *)
Lemma signup_new (db : database) (body : SignUpBody) (now : Z) :
  ~ registered db (sb_email body) ->
  signup L body now db
  = (added user_c
       (UserSchema (sb_name body) (sb_email body) (sha256_hex L (sb_password body))
          (sb_role body) (sb_phone body) (sb_region body) false
          (Some (derive_token L (sb_email body) (role_str (sb_role body)))))
       now db,
     Ok {| ar_id := oid_str L (next_oid db);
           ar_token := derive_token L (sb_email body) (role_str (sb_role body));
           ar_role := role_str (sb_role body);
           ar_name := Some (sb_name body) |}).
Proof.
  intros Hnew.
  unfold signup, bind, find_one. cbn [docs user_c].
  change (fun d : stored UserDoc => String.eqb (u_email (fields d)) (sb_email body))
    with (has_email (sb_email body)).
  destruct (List.find (has_email (sb_email body)) (user db)) as [v |] eqn:Hf.
  { exfalso. apply Hnew. apply registered_find. now exists v. }
  reflexivity.
Qed.

Lemma not_registered_Forall (db : database) (e : string) :
  ~ registered db e -> Forall (fun d => has_email e d = false) (user db).
Proof.
  intros Hnew. apply find_none_Forall.
  destruct (List.find (has_email e) (user db)) as [v |] eqn:Hf; [| reflexivity].
  exfalso. apply Hnew. apply registered_find. now exists v.
Qed.

(** A header "Bearer <x>" is resolved by looking up [x] stripped. *)
Lemma get_current_user_bearer (db : database) (x : string) :
  get_current_user L (Some ("Bearer " ++ x)) db = (db, resolve L db (strip x)).
Proof.
  unfold get_current_user, resolve. cbn.
  unfold bind, find_one. cbn [docs user_c].
  destruct (List.find _ (user db)); reflexivity.
Qed.

(** X12: a login with an email that no user has, and a login with the
    email of a user whose stored hash is not the hash of the password, get
    the same answer, 401 "Invalid credentials", and write nothing; login
    raises no other error. *)
Theorem X12_login_refused (db : database) (body : LoginBody) :
  (~ registered db (lb_email body) ->
   login L body db = (db, Raise (HTTPException 401 "Invalid credentials")))
  /\ (forall u,
         List.find (has_email (lb_email body)) (user db) = Some u ->
         u_password_hash (fields u) <> Some (sha256_hex L (lb_password body)) ->
         login L body db = (db, Raise (HTTPException 401 "Invalid credentials")))
  /\ (forall db' e,
         login L body db = (db', Raise e) ->
         db' = db /\ e = HTTPException 401 "Invalid credentials").
Proof.
  split; [| split].
  - intros Hnew. rewrite login_eq.
    apply not_registered_Forall, find_none_Forall in Hnew. now rewrite Hnew.
  - intros u Hf Hpw. rewrite login_eq, Hf.
    destruct (opt_str_eqb (u_password_hash (fields u))
                (Some (sha256_hex L (lb_password body)))) eqn:E; [| reflexivity].
    exfalso. apply Hpw. now apply opt_str_eqb_eq.
  - intros db' e. rewrite login_eq.
    destruct (List.find (has_email (lb_email body)) (user db)) as [u |];
      [| now intros [= <- <-]].
    destruct (negb _); [now intros [= <- <-] |].
    destruct (u_token (fields u)) as [[| c t] |]; discriminate.
Qed.

(** X13: after a signup with a new email, a login with the same email and
    password answers what the signup answered: the same id, token, role and
    name; a login with a password of another hash is refused with 401 and
    writes nothing. *)
Theorem X13_signup_then_login (db : database) (body : SignUpBody) (now : Z) :
  ~ registered db (sb_email body) ->
  exists db1 r,
    signup L body now db = (db1, Ok r)
    /\ snd (login L {| lb_email := sb_email body; lb_password := sb_password body |} db1)
       = Ok r
    /\ (forall pw,
           sha256_hex L pw <> sha256_hex L (sb_password body) ->
           login L {| lb_email := sb_email body; lb_password := pw |} db1
           = (db1, Raise (HTTPException 401 "Invalid credentials"))).
Proof.
  intros Hnew. do 2 eexists.
  split; [apply (signup_new db body now Hnew) |].
  set (tok := derive_token L (sb_email body) (role_str (sb_role body))).
  set (new := {| _id := next_oid db; created_at := now;
                 fields := UserSchema (sb_name body) (sb_email body)
                             (sha256_hex L (sb_password body)) (sb_role body)
                             (sb_phone body) (sb_region body) false (Some tok) |}).
  assert (Hfind : List.find (has_email (sb_email body)) (user db ++ [new]) = Some new).
  { rewrite find_app_last by (now apply not_registered_Forall).
    unfold has_email. cbn. now rewrite String.eqb_refl. }
  split.
  - rewrite login_eq. cbn [user added bump set_docs user_c docs lb_email lb_password].
    fold new. rewrite Hfind.
    cbn [fields new UserSchema u_password_hash opt_str_eqb].
    rewrite String.eqb_refl. cbn [negb].
    unfold login_response, token_of. subst new tok. unfold derive_token.
    cbn [fields _id UserSchema u_token u_email u_role u_name dflt snd].
    destruct (sha256_hex L (sb_email body ++ ":" ++ role_str (sb_role body)))
      as [| c t]; reflexivity.
  - intros pw Hpw.
    rewrite login_eq. cbn [user added bump set_docs user_c docs lb_email lb_password].
    fold new. rewrite Hfind.
    cbn [fields new UserSchema u_password_hash opt_str_eqb].
    assert (Hne : String.eqb (sha256_hex L (sb_password body)) (sha256_hex L pw) = false).
    { apply String.eqb_neq. congruence. }
    now rewrite Hne.
Qed.

(** X14: after a signup with a new email, the header "Bearer <token>"
    with the token that the signup returned resolves to the new user: the
    returned id, role and name.  No user stored before carries this token,
    and the token has no whitespace around it. *)
Theorem X14_signup_then_resolve (db : database) (body : SignUpBody) (now : Z) :
  ~ registered db (sb_email body) ->
  Forall (fun d => u_token (fields d)
                   <> Some (derive_token L (sb_email body) (role_str (sb_role body))))
    (user db) ->
  strip (derive_token L (sb_email body) (role_str (sb_role body)))
  = derive_token L (sb_email body) (role_str (sb_role body)) ->
  exists db1 r,
    signup L body now db = (db1, Ok r)
    /\ get_current_user L (Some ("Bearer " ++ ar_token r)) db1
       = (db1, Ok {| au_id := ar_id r; au_role := ar_role r; au_name := ar_name r |}).
Proof.
  intros Hnew Huniq Hstrip. do 2 eexists.
  split; [apply (signup_new db body now Hnew) |].
  rewrite get_current_user_bearer. cbn [ar_token ar_id ar_role ar_name].
  rewrite Hstrip. unfold resolve.
  cbn [user added bump set_docs user_c docs].
  rewrite find_app_last.
  - cbn [fields UserSchema u_token opt_str_eqb]. now rewrite String.eqb_refl.
  - eapply Forall_impl; [| exact Huniq]. intros d Hd. cbn beta.
    destruct (opt_str_eqb (u_token (fields d)) (Some _)) eqn:E; [| reflexivity].
    exfalso. apply Hd. now apply opt_str_eqb_eq.
Qed.

(** X15: no login, whether it returns or raises, changes a listing, an
    order or the identifier source, and of the users it changes at most a
    token: identifiers, creation times, emails, password hashes, roles and
    the other fields stay what they were, in the same order. *)
Theorem X15_login_touches_token_only (db : database) (body : LoginBody) :
  let db' := fst (login L body db) in
  listing db' = listing db
  /\ order db' = order db
  /\ next_oid db' = next_oid db
  /\ map without_token (user db') = map without_token (user db).
Proof.
  rewrite login_eq.
  destruct (List.find (has_email (lb_email body)) (user db)) as [u |];
    [| repeat split].
  destruct (negb _); [repeat split |].
  assert (Hupd : map without_token
                   (fst (update_first (same_id u) (set_token (token_of L u)) (user db)))
                 = map without_token (user db))
    by (apply map_update_first; reflexivity).
  destruct (u_token (fields u)) as [[| c t] |]; cbn [fst];
    repeat split; exact Hupd.
Qed.

End AccountFacts.

(* ===================================================================== *)
(** * Searching listings: bounds, order and filters *)
(* ===================================================================== *)



Section SearchFacts.

Context (L : Lib).


(** What a listing accepted by the filter of a search satisfies. *)
Lemma matches_components (category region q : option string)
  (min_price max_price : option float) (d : stored ListingDoc) :
  matches L (listing_filter category region q min_price max_price) d = true ->
  (forall c, category = Some c -> c <> "" -> l_category (fields d) = Some c)
  /\ (forall r, region = Some r -> r <> "" -> l_region (fields d) = Some r)
  /\ (is_some min_price || is_some max_price = true ->
      price_within min_price max_price (fields d)).
Proof.
  unfold matches, listing_filter.
  cbn [f_status f_category f_region f_unit_price f_title_regex].
  intros H.
  apply andb_prop in H as [H _].
  apply andb_prop in H as [H Hp].
  apply andb_prop in H as [H Hr].
  apply andb_prop in H as [_ Hc].
  split; [| split].
  - intros c -> Hne. destruct c; [congruence |]. cbn [truthy] in Hc.
    now apply opt_str_eqb_eq.
  - intros r -> Hne. destruct r; [congruence |]. cbn [truthy] in Hr.
    now apply opt_str_eqb_eq.
  - intros Hb. rewrite Hb in Hp. unfold price_within.
    destruct (l_unit_price (fields d)) as [p |]; [| discriminate].
    apply andb_prop in Hp as [Hlo Hhi].
    exists p. split; [reflexivity |].
    split; [intros a -> | intros b ->]; assumption.
Qed.


(** X17: every listing that a search returns satisfies each filter given:
    its category and its region are the non-empty ones asked for, and, when
    a price bound is given, it has a unit price within the given bounds,
    both included.  A category, a region or a text given as the empty
    string filters nothing. *)
Theorem X17_search_honours_filters (db db' : database)
  (category region q : option string) (min_price max_price : option float)
  (limit : Z) (res : list (serialized ListingDoc)) :
  get_listings L category region q min_price max_price limit db = (db', Ok res) ->
  Forall (fun s =>
            (forall c, category = Some c -> c <> "" -> l_category (s_fields s) = Some c)
            /\ (forall r, region = Some r -> r <> "" -> l_region (s_fields s) = Some r)
            /\ (is_some min_price || is_some max_price = true ->
                price_within min_price max_price (s_fields s))) res
  /\ get_listings L (Some "") region q min_price max_price limit db
     = get_listings L None region q min_price max_price limit db
  /\ get_listings L category (Some "") q min_price max_price limit db
     = get_listings L category None q min_price max_price limit db
  /\ get_listings L category region (Some "") min_price max_price limit db
     = get_listings L category region None min_price max_price limit db.
Proof.
  intros H. split; [| repeat split].
  revert H. unfold get_listings.
  destruct (negb (price_param_ok min_price)); [discriminate |].
  destruct (negb (price_param_ok max_price)); [discriminate |].
  destruct (negb _); [discriminate |].
  unfold bind, fetch, ret. intros [= _ <-].
  apply Forall_forall. intros s Hs.
  apply in_map_iff in Hs as (d & <- & Hd).
  apply run_query_In in Hd as [_ Hm].
  cbn [cur_filter sort_created_at_desc with_limit find] in Hm.
  cbn [serialize_doc s_fields].
  now apply matches_components with (q := q).
Qed.

End SearchFacts.

(* ===================================================================== *)
(** * Messages *)
(* ===================================================================== *)

Section MessageFacts.

Context (L : Lib).

(** X18: sending a message appends one record, whose sender is the
    caller's own id, whatever the caller's role, and returns its
    identifier; users, listings and orders are untouched.  The inbox of a
    caller whose id is the recipient's then shows the message, under the
    returned identifier; the inbox of a caller with any other id answers
    what it answered before. *)
Theorem X18_sent_message_reaches_recipient (st : mailstore) (body : MessageBody)
  (current : AuthedUser) (now : Z) :
  exists st',
    send_message L body current now st = (st', Ok (oid_str L (next_oid (core st))))
    /\ message st'
       = (message st ++
            [{| _id := next_oid (core st); created_at := now;
                fields := {| m_sender_id := au_id current;
                             m_recipient_id := mb_recipient_id body;
                             m_body := mb_body body;
                             m_related_order_id := mb_related_order_id body |} |}])%list
    /\ user (core st') = user (core st)
    /\ listing (core st') = listing (core st)
    /\ order (core st') = order (core st)
    /\ (forall reader,
           au_id reader = mb_recipient_id body ->
           exists res s,
             inbox L reader st' = (st', Ok res)
             /\ In s res
             /\ s_id s = oid_str L (next_oid (core st))
             /\ s_created_at s = now
             /\ m_sender_id (s_fields s) = au_id current
             /\ m_body (s_fields s) = mb_body body)
    /\ (forall reader,
           au_id reader <> mb_recipient_id body ->
           snd (inbox L reader st') = snd (inbox L reader st)).
Proof.
  eexists. split; [reflexivity |].
  cbn [message core]. split; [reflexivity |].
  do 3 (split; [reflexivity |]).
  split.
  - intros reader Hr. unfold inbox. cbn [message].
    do 2 eexists. split; [reflexivity |].
    split.
    + apply in_map, In_sort_desc, filter_In. split.
      * apply in_or_app. right. left. reflexivity.
      * cbn. rewrite Hr. apply String.eqb_refl.
    + cbn. repeat split.
  - intros reader Hr. unfold inbox. cbn [snd message].
    rewrite filter_app_last. cbn [fields MessageSchema m_recipient_id].
    assert (Hne : String.eqb (mb_recipient_id body) (au_id reader) = false).
    { apply String.eqb_neq. congruence. }
    rewrite Hne. now rewrite app_nil_r.
Qed.

(** X19: the inbox reads and does not write; it answers exactly the stored
    messages whose recipient is the caller's own id, each once, newest
    first, to a caller of any role. *)
Theorem X19_inbox_scope (st : mailstore) (current : AuthedUser) :
  exists found,
    inbox L current st = (st, Ok (map (serialize_doc L) found))
    /\ Permutation found
         (filter (fun d => String.eqb (m_recipient_id (fields d)) (au_id current))
            (message st))
    /\ StronglySorted desc found
    /\ (forall d, In d found <->
                  In d (message st) /\ m_recipient_id (fields d) = au_id current).
Proof.
  eexists. split; [reflexivity |].
  split; [apply sort_desc_perm |].
  split; [apply sort_desc_sorted |].
  intros d. rewrite In_sort_desc, filter_In. now rewrite String.eqb_eq.
Qed.

End MessageFacts.

(* ===================================================================== *)
(** * The identifiers stay distinct *)
(* ===================================================================== *)

Lemma ids_ok_succ {T} (n : OID) (l : list (stored T)) :
  ids_ok n l -> ids_ok (N.succ n) l.
Proof.
  intros [Hlt Hnd]. split; [| exact Hnd].
  eapply Forall_impl; [| exact Hlt]. intros i Hi. cbn beta in *. lia.
Qed.

Lemma ids_ok_added {T} (n : OID) (l : list (stored T)) (now : Z) (x : T) :
  ids_ok n l ->
  ids_ok (N.succ n) (l ++ [{| _id := n; created_at := now; fields := x |}]).
Proof.
  intros [Hlt Hnd]. unfold ids_ok. rewrite map_app. cbn [map _id]. split.
  - apply Forall_app. split.
    + eapply Forall_impl; [| exact Hlt]. intros i Hi. cbn beta in *. lia.
    + constructor; [lia | constructor].
  - apply NoDup_app; [exact Hnd | repeat constructor; intros [] |].
    intros a Ha [<- | []].
    rewrite Forall_forall in Hlt. specialize (Hlt _ Ha). cbn beta in Hlt. lia.
Qed.

Lemma ids_ok_update_first {T} (n : OID) (p : stored T -> bool) (f : T -> T)
  (l : list (stored T)) :
  ids_ok n l -> ids_ok n (fst (update_first p f l)).
Proof.
  unfold ids_ok. now rewrite (map_update_first _id p f l) by reflexivity.
Qed.

Section StoreInvariant.

Context (L : Lib).

(** X20: every route keeps the store well formed: if, in each collection,
    the identifiers are distinct and below the source of fresh identifiers,
    they still are after a signup, a login, the creation of a listing, a
    status update or the placing of an order, whether the call returns or
    raises. *)
Theorem X20_routes_keep_identifiers_distinct (db : database) :
  store_ok db ->
  (forall body now, store_ok (fst (signup L body now db)))
  /\ (forall body, store_ok (fst (login L body db)))
  /\ (forall body current now, store_ok (fst (create_listing L body current now db)))
  /\ (forall lid body current, store_ok (fst (update_listing_status L lid body current db)))
  /\ (forall body current now, store_ok (fst (create_order L body current now db))).
Proof.
  intros (Hu & Hl & Ho).
  assert (Hdb : store_ok db) by (split; [| split]; assumption).
  split; [| split; [| split; [| split]]].
  - intros body now. unfold signup, bind, find_one. cbn [docs user_c].
    destruct (List.find _ (user db)); [exact Hdb |].
    cbn [fst create_document ret bump set_docs user_c docs user listing order next_oid].
    unfold create_document, ret.
    cbn [fst bump set_docs user_c docs user listing order next_oid].
    split; [now apply ids_ok_added |].
    split; now apply ids_ok_succ.
  - intros body. rewrite login_eq.
    destruct (List.find (has_email (lb_email body)) (user db)) as [u |]; [| exact Hdb].
    destruct (negb _); [exact Hdb |].
    destruct (u_token (fields u)) as [[| c t] |]; try exact Hdb;
      (cbn [fst set_docs user_c user listing order next_oid];
       split; [now apply ids_ok_update_first | split; assumption]).
  - intros body current now. rewrite create_listing_eq.
    destruct (negb _); [exact Hdb |].
    destruct (listing_body_ok body); [| exact Hdb].
    cbn [fst added bump set_docs listing_c docs user listing order next_oid].
    split; [now apply ids_ok_succ |].
    split; [now apply ids_ok_added | now apply ids_ok_succ].
  - intros lid body current. rewrite update_listing_status_eq.
    destruct (negb _); [exact Hdb |].
    destruct (ObjectId L lid) as [o |]; [| exact Hdb].
    cbn [fst set_docs listing_c user listing order next_oid].
    split; [assumption |]. split; [now apply ids_ok_update_first | assumption].
  - intros body current now.
    destruct (create_order L body current now db) as [db' [r | e]] eqn:H; cbn [fst].
    + apply create_order_ok_inv in H as (_ & _ & _ & _ & _ & -> & _).
      cbn [added bump set_docs order_c docs user listing order next_oid].
      split; [now apply ids_ok_succ |].
      split; [now apply ids_ok_succ | now apply ids_ok_added].
    + apply create_order_raise_inv in H as ->. exact Hdb.
Qed.

End StoreInvariant.

(* ===================================================================== *)
(** * These properties on the sample store *)
(* ===================================================================== *)

Lemma sample_c_not_registered : ~ registered Sample.db0 "c@x.com".
Proof.
  intros (u & Hin & Hu).
  destruct Hin as [<- | [<- | []]]; discriminate Hu.
Qed.

Lemma X1_witness :
  create_listing Sample.lib SampleMore.yam_body Sample.bola_user 200 Sample.db0
  = (Sample.db0, Raise (HTTPException 403 "Only farmers can create listings"))
  /\ create_listing Sample.lib SampleMore.bad_body Sample.amara_user 200 Sample.db0
     = (Sample.db0, Raise (Uncaught "ValidationError")).
Proof.
  split.
  - apply (proj1 (X1_create_listing_refused Sample.lib Sample.db0 SampleMore.yam_body
                    Sample.bola_user 200)).
    intros [H | H]; discriminate H.
  - apply (proj2 (proj2 (X1_create_listing_refused Sample.lib Sample.db0
                           SampleMore.bad_body Sample.amara_user 200))).
    + left. reflexivity.
    + left. reflexivity.
Defined.

Lemma X2_witness :
  exists db' doc,
    create_listing Sample.lib SampleMore.yam_body Sample.amara_user 200 Sample.db0
    = (db', Ok (oid_str Sample.lib (next_oid Sample.db0)))
    /\ listing db'
       = (listing Sample.db0 ++
            [{| _id := next_oid Sample.db0; created_at := 200%Z; fields := doc |}])%list
    /\ l_status doc = Some "active"
    /\ l_farmer_id doc = au_id Sample.amara_user
    /\ l_category doc = Some "other"
    /\ l_unit doc = Some "kg".
Proof.
  destruct (X2_create_listing_stores Sample.lib Sample.db0 SampleMore.yam_body
              Sample.amara_user 200 (or_introl eq_refl) eq_refl)
    as (db' & doc & Hrun & Hl & Hs & Hf & _ & _ & _ & Hc & Hu & _).
  exists db', doc.
  split; [exact Hrun |]. split; [exact Hl |]. split; [exact Hs |].
  split; [exact Hf |]. split; [exact (Hc eq_refl) | exact (Hu eq_refl)].
Defined.

Lemma X3_witness :
  exists db' rest,
    create_listing Sample.lib SampleMore.yam_body Sample.amara_user 200 Sample.db0
    = (db', Ok (oid_str Sample.lib (next_oid Sample.db0)))
    /\ get_listings Sample.lib None None None None None 1 db'
       = (db', Ok ({| s_id := oid_str Sample.lib (next_oid Sample.db0);
                      s_created_at := 200%Z;
                      s_fields := new_listing SampleMore.yam_body Sample.amara_user |}
                     :: rest))
    /\ at_least_zero (l_quantity_available
                        (new_listing SampleMore.yam_body Sample.amara_user))
    /\ (exists p, l_unit_price (new_listing SampleMore.yam_body Sample.amara_user)
                  = Some p
                  /\ at_least_zero p).
Proof.
  apply (X3_created_listing_is_found Sample.lib Sample.db0 SampleMore.yam_body
           Sample.amara_user 200 1).
  - left. reflexivity.
  - reflexivity.
  - repeat constructor.
  - lia.
Defined.

(** Four units of yam at 1.5 make 6.0; 0.33 units make the double next
    below 0.495, answered as 0.49. *)
Lemma X4_witness :
  (exists db1 db2,
      create_listing Sample.lib SampleMore.yam_body Sample.amara_user 200 Sample.db0
      = (db1, Ok (oid_str Sample.lib (next_oid Sample.db0)))
      /\ create_order Sample.lib
           {| items := [{| listing_id := oid_str Sample.lib (next_oid Sample.db0);
                           quantity := float_of_int 4 |}];
              delivery_terms := None; payment_method := Some "cash" |}
           Sample.bola_user 201 db1
         = (db2, Ok {| or_id := oid_str Sample.lib (N.succ (next_oid Sample.db0));
                       or_total := mkfloat 6 0;
                       or_status := "pending" |}))
  /\ (exists db1 db2,
         create_listing Sample.lib SampleMore.yam_body Sample.amara_user 200 Sample.db0
         = (db1, Ok (oid_str Sample.lib (next_oid Sample.db0)))
         /\ create_order Sample.lib
              {| items := [{| listing_id := oid_str Sample.lib (next_oid Sample.db0);
                              quantity := fdiv (float_of_int 33) (float_of_int 100) |}];
                 delivery_terms := None; payment_method := None |}
              Sample.bola_user 201 db1
            = (db2, Ok {| or_id := oid_str Sample.lib (N.succ (next_oid Sample.db0));
                          or_total := fdiv (float_of_int 49) (float_of_int 100);
                          or_status := "pending" |})).
Proof.
  split.
  - destruct (X4_order_on_created_listing Sample.lib Sample.db0 SampleMore.yam_body
                Sample.amara_user Sample.bola_user 200 201 (float_of_int 4)
                None (Some "cash"))
      as (db1 & db2 & total & Hmade & Hrun & Htot & _).
    + left. reflexivity.
    + reflexivity.
    + left. reflexivity.
    + repeat constructor; discriminate.
    + reflexivity.
    + reflexivity.
    + reflexivity.
    + exists db1, db2. split; [exact Hmade |].
      rewrite Hrun, Htot. vm_compute. reflexivity.
  - destruct (X4_order_on_created_listing Sample.lib Sample.db0 SampleMore.yam_body
                Sample.amara_user Sample.bola_user 200 201
                (fdiv (float_of_int 33) (float_of_int 100)) None None)
      as (db1 & db2 & total & Hmade & Hrun & Htot & _).
    + left. reflexivity.
    + reflexivity.
    + left. reflexivity.
    + repeat constructor; discriminate.
    + reflexivity.
    + reflexivity.
    + reflexivity.
    + exists db1, db2. split; [exact Hmade |].
      rewrite Hrun, Htot. vm_compute. reflexivity.
Defined.

Lemma X5_witness :
  update_listing_status Sample.lib Sample.maize_id SampleMore.withdraw
    Sample.bola_user Sample.db0
  = (Sample.db0, Raise (HTTPException 403 "Only officers/admin can update status"))
  /\ update_listing_status Sample.lib "xyz" SampleMore.withdraw
       SampleMore.olu_user Sample.db0
     = (Sample.db0, Raise (HTTPException 400 "Invalid id format"))
  /\ update_listing_status Sample.lib "0000000000000000000000ff" SampleMore.withdraw
       SampleMore.olu_user Sample.db0
     = (Sample.db0, Raise (HTTPException 404 "Listing not found")).
Proof.
  split; [| split].
  - apply (proj1 (X5_update_status_refused Sample.lib Sample.db0 Sample.maize_id
                    SampleMore.withdraw Sample.bola_user)).
    intros [H | H]; discriminate H.
  - apply (proj1 (proj2 (X5_update_status_refused Sample.lib Sample.db0 "xyz"
                           SampleMore.withdraw SampleMore.olu_user)));
      [left; reflexivity | reflexivity].
  - apply (proj2 (proj2 (X5_update_status_refused Sample.lib Sample.db0
                           "0000000000000000000000ff"
                           SampleMore.withdraw SampleMore.olu_user))
             (or_introl eq_refl) 255%N); [reflexivity |].
    repeat constructor; discriminate.
Defined.

Lemma X6_witness :
  exists db' pre post,
    update_listing_status Sample.lib Sample.beans_id SampleMore.withdraw
      SampleMore.olu_user Sample.db0
    = (db', Ok {| sr_id := Sample.beans_id; sr_status := "sold" |})
    /\ listing Sample.db0 = (pre ++ Sample.beans :: post)%list
    /\ id_unused 17%N pre
    /\ listing db'
       = (pre ++ {| _id := _id Sample.beans; created_at := created_at Sample.beans;
                    fields := set_status "sold" (fields Sample.beans) |} :: post)%list
    /\ user db' = user Sample.db0
    /\ order db' = order Sample.db0
    /\ next_oid db' = next_oid Sample.db0
    /\ update_listing_status Sample.lib Sample.beans_id SampleMore.withdraw
         SampleMore.olu_user db'
       = (db', Ok {| sr_id := Sample.beans_id; sr_status := "sold" |}).
Proof.
  apply (X6_update_status_effect Sample.lib Sample.db0 Sample.beans_id
           SampleMore.withdraw SampleMore.olu_user 17%N Sample.beans).
  - left. reflexivity.
  - reflexivity.
  - reflexivity.
Defined.

Lemma X7_witness :
  create_order Sample.lib
    (Sample.cart [Sample.item Sample.bare_id 2;
                  Sample.item "000000000000000000000010" 1])
    Sample.bola_user 300 SampleMore.db_sold
  = (SampleMore.db_sold,
     Raise (HTTPException 400 "Listing not active: 000000000000000000000010")).
Proof.
  apply (X7_no_order_on_withdrawn_listing Sample.lib Sample.db0 SampleMore.db_sold
           Sample.maize_id SampleMore.withdraw SampleMore.olu_user
           {| sr_id := Sample.maize_id; sr_status := "sold" |}
           (Sample.cart [Sample.item Sample.bare_id 2;
                         Sample.item "000000000000000000000010" 1])
           Sample.bola_user 300
           [Sample.item Sample.bare_id 2] []
           (Sample.item "000000000000000000000010" 1)).
  - discriminate.
  - reflexivity.
  - left. reflexivity.
  - reflexivity.
  - constructor; [| constructor].
    exists Sample.bare. split; [reflexivity |]. split; reflexivity.
  - reflexivity.
Defined.

Lemma X8_witness :
  Forall (fun s => ObjectId Sample.lib (s_id s) <> ObjectId Sample.lib Sample.maize_id)
    [serialize_doc Sample.lib Sample.bare].
Proof.
  apply (X8_withdrawn_listing_not_listed Sample.lib Sample.db0 SampleMore.db_sold
           SampleMore.db_sold Sample.maize_id SampleMore.withdraw SampleMore.olu_user
           {| sr_id := Sample.maize_id; sr_status := "sold" |}
           None None None None None 50).
  - discriminate.
  - repeat constructor; cbn; intuition discriminate.
  - repeat constructor.
  - reflexivity.
  - reflexivity.
Defined.

Lemma X9_witness :
  exists doc,
    order SampleMore.db_ordered
    = (order Sample.db0 ++
         [{| _id := next_oid Sample.db0; created_at := 200%Z; fields := doc |}])%list
    /\ o_buyer_id doc = au_id Sample.bola_user
    /\ o_items doc <> []
    /\ List.length (o_items doc) = 1%nat
    /\ flt (o_total_amount doc) fzero = false
    /\ o_total_amount doc = mkfloat 25 0
    /\ o_status doc = "pending".
Proof.
  destruct (X9_stored_order_is_sound Sample.lib Sample.db0 SampleMore.db_ordered
              (Sample.cart [Sample.item Sample.maize_id 10]) Sample.bola_user 200
              {| or_id := "000000000000000000000020"; or_total := mkfloat 25 0;
                 or_status := "pending" |})
    as (doc & Hord & _ & _ & _ & Hb & Hne & Hlen & _ & Hnn & Htot & Hst).
  - vm_compute. reflexivity.
  - exists doc. repeat split; trivial.
Defined.

Lemma X11_witness :
  (exists res s,
      my_orders Sample.lib Sample.bola_user SampleMore.db_ordered
      = (SampleMore.db_ordered, Ok res)
      /\ In s res
      /\ s_id s = "000000000000000000000020"
      /\ s_created_at s = 200%Z
      /\ o_buyer_id (s_fields s) = au_id Sample.bola_user
      /\ o_total_amount (s_fields s) = mkfloat 25 0
      /\ o_status (s_fields s) = "pending")
  /\ snd (my_orders Sample.lib Sample.ada_user SampleMore.db_ordered)
     = snd (my_orders Sample.lib Sample.ada_user Sample.db0).
Proof.
  destruct (X11_placed_order_is_listed Sample.lib Sample.db0 SampleMore.db_ordered
              (Sample.cart [Sample.item Sample.maize_id 10]) Sample.bola_user 200
              {| or_id := "000000000000000000000020"; or_total := mkfloat 25 0;
                 or_status := "pending" |}) as [Hmine Hother].
  - vm_compute. reflexivity.
  - split; [exact Hmine |].
    apply (Hother Sample.ada_user). discriminate.
Defined.

Lemma X12_witness :
  login Sample.lib {| lb_email := "z@x.com"; lb_password := "pw123" |} Sample.db0
  = (Sample.db0, Raise (HTTPException 401 "Invalid credentials"))
  /\ login Sample.lib {| lb_email := "a@x.com"; lb_password := "guess" |} Sample.db0
     = (Sample.db0, Raise (HTTPException 401 "Invalid credentials")).
Proof.
  split.
  - apply (proj1 (X12_login_refused Sample.lib Sample.db0
                    {| lb_email := "z@x.com"; lb_password := "pw123" |})).
    intros (u & Hin & Hu).
    destruct Hin as [<- | [<- | []]]; discriminate Hu.
  - apply (proj1 (proj2 (X12_login_refused Sample.lib Sample.db0
                           {| lb_email := "a@x.com"; lb_password := "guess" |}))
             Sample.amara); [reflexivity | discriminate].
Defined.

Lemma X13_witness :
  exists db1 r,
    signup Sample.lib (Sample.signup_body "c@x.com") 300 Sample.db0 = (db1, Ok r)
    /\ snd (login Sample.lib {| lb_email := "c@x.com"; lb_password := "pw" |} db1) = Ok r
    /\ login Sample.lib {| lb_email := "c@x.com"; lb_password := "wrong" |} db1
       = (db1, Raise (HTTPException 401 "Invalid credentials")).
Proof.
  destruct (X13_signup_then_login Sample.lib Sample.db0 (Sample.signup_body "c@x.com")
              300 sample_c_not_registered) as (db1 & r & Hs & Hl & Hw).
  exists db1, r. split; [exact Hs |]. split; [exact Hl |].
  apply (Hw "wrong"). discriminate.
Defined.

Lemma X14_witness :
  exists db1 r,
    signup Sample.lib (Sample.signup_body "c@x.com") 300 Sample.db0 = (db1, Ok r)
    /\ get_current_user Sample.lib (Some ("Bearer " ++ ar_token r)) db1
       = (db1, Ok {| au_id := ar_id r; au_role := ar_role r; au_name := ar_name r |}).
Proof.
  apply (X14_signup_then_resolve Sample.lib Sample.db0 (Sample.signup_body "c@x.com")
           300 sample_c_not_registered).
  - repeat constructor; discriminate.
  - reflexivity.
Defined.


Lemma X17_witness :
  Forall (fun s =>
            l_category (s_fields s) = Some "grains"
            /\ price_within (Some (mkfloat 1 0)) (Some (mkfloat 10 0)) (s_fields s))
    [serialize_doc Sample.lib Sample.maize].
Proof.
  destruct (X17_search_honours_filters Sample.lib Sample.db0 Sample.db0
              (Some "grains") (Some "") None (Some (mkfloat 1 0)) (Some (mkfloat 10 0))
              50 [serialize_doc Sample.lib Sample.maize] eq_refl) as [H _].
  eapply Forall_impl; [| exact H].
  intros s (Hc & _ & Hp). split.
  - apply (Hc "grains"); [reflexivity | discriminate].
  - apply Hp. reflexivity.
Defined.

Lemma X18_witness :
  exists st' res s,
    send_message Sample.lib SampleMore.hello Sample.bola_user 300 SampleMore.mail0
    = (st', Ok (oid_str Sample.lib (next_oid (core SampleMore.mail0))))
    /\ inbox Sample.lib Sample.amara_user st' = (st', Ok res)
    /\ In s res
    /\ s_id s = oid_str Sample.lib (next_oid (core SampleMore.mail0))
    /\ m_sender_id (s_fields s) = au_id Sample.bola_user
    /\ m_body (s_fields s) = "Hello"
    /\ snd (inbox Sample.lib Sample.bola_user st')
       = snd (inbox Sample.lib Sample.bola_user SampleMore.mail0).
Proof.
  destruct (X18_sent_message_reaches_recipient Sample.lib SampleMore.mail0
              SampleMore.hello Sample.bola_user 300)
    as (st' & Hsend & _ & _ & _ & _ & Hto & Hnot).
  destruct (Hto Sample.amara_user eq_refl) as (res & s & Hin & Hs & Hid & _ & Hfrom & Hb).
  exists st', res, s.
  split; [exact Hsend |]. split; [exact Hin |]. split; [exact Hs |].
  split; [exact Hid |]. split; [exact Hfrom |]. split; [exact Hb |].
  apply (Hnot Sample.bola_user). discriminate.
Defined.

Lemma X20_witness :
  store_ok (fst (signup Sample.lib (Sample.signup_body "c@x.com") 300 Sample.db0))
  /\ store_ok (fst (login Sample.lib Sample.bola_login Sample.db0))
  /\ store_ok (fst (create_listing Sample.lib SampleMore.yam_body Sample.amara_user
                      200 Sample.db0))
  /\ store_ok SampleMore.db_sold
  /\ store_ok SampleMore.db_ordered.
Proof.
  assert (H0 : store_ok Sample.db0).
  { repeat split; cbn; repeat constructor; cbn; try lia; intuition discriminate. }
  destruct (X20_routes_keep_identifiers_distinct Sample.lib Sample.db0 H0)
    as (Hs & Hl & Hc & Hu & Ho).
  split; [apply Hs |]. split; [apply Hl |]. split; [apply Hc |].
  split; [apply Hu | apply Ho].
Defined.
